(** * NEST flight CLI: the session lifecycle orchestrator and its callers

    A shallow embedding of

      - [src/config/settings.py]   (the settings dataclasses),
      - [src/config/__init__.py]   ([load_settings_from_env]),
      - [src/cli/main.py]          ([_parse_extras], [parse_args]),
      - [src/core/runner.py]       ([_safe_asdict], [_write_settings_snapshot], [run]),

    followed by the properties of the specification, stated on these
    definitions.

    Conventions.  Text is ASCII text ([string]); calls into collaborators
    (argparse, the environment, the filesystem, the vehicle, swarm, vision
    and UI classes) are calls whose outcome is supplied by the caller of the
    model, and every such call is recorded in a trace of events.  What a
    call raises is an instance of [BaseException] that carries the names of
    the classes of its class, so that it is or is not an instance of
    [Exception]: the handlers [except Exception] of the runner intercept the
    former and let the latter ([KeyboardInterrupt], [SystemExit], ...) pass. *)

From stdpp Require Import base strings gmap list.
From Stdlib Require Import ZArith Ascii String SpecFloat.
From Equations Require Import Equations.

Set Warnings "-register-all".
Local Open Scope string_scope.

(** ** Python primitives used by the sources *)

Module Py.

(** What is raised, an instance of [BaseException]: the name of its class,
    the names of the classes that this class derives from, and [str(e)]. *)
Record BaseException := {
  exc_class : string;
  exc_bases : list string;
  exc_msg : string
}.

(** [isinstance(e, cls)], a class being told by its name. *)
Definition isinstance (e : BaseException) (cls : string) : bool :=
  existsb (String.eqb cls) (exc_class e :: exc_bases e).

(** The classes from which a direct subclass of [Exception] derives. *)
Definition Exception_bases : list string := ["Exception"; "BaseException"; "object"].

Definition ValueError (msg : string) : BaseException :=
  {| exc_class := "ValueError"; exc_bases := Exception_bases; exc_msg := msg |}.
Definition AttributeError (msg : string) : BaseException :=
  {| exc_class := "AttributeError"; exc_bases := Exception_bases; exc_msg := msg |}.
Definition TypeError (msg : string) : BaseException :=
  {| exc_class := "TypeError"; exc_bases := Exception_bases; exc_msg := msg |}.

(** The argument of [SystemExit]: an exit status or a message. *)
Inductive exit_arg := ExitCode (code : Z) | ExitMsg (msg : string).

(** What leaves the command line functions when they do not return: an
    exception that was raised, or the [SystemExit] of the command line
    itself (argparse errors, [raise SystemExit(...)]) with its argument. *)
Inductive Abort := Raised (e : BaseException) | SystemExit (arg : exit_arg).

Definition between (lo hi n : N) : bool := ((lo <=? n) && (n <=? hi))%N.

(** [str.lower()] and [str.upper()] on ASCII text. *)
Definition lower_ascii (c : ascii) : ascii :=
  let n := N_of_ascii c in
  if between 65 90 n then ascii_of_N (n + 32) else c.
Definition upper_ascii (c : ascii) : ascii :=
  let n := N_of_ascii c in
  if between 97 122 n then ascii_of_N (n - 32) else c.

Fixpoint lower (s : string) : string :=
  match s with
  | EmptyString => EmptyString
  | String c r => String (lower_ascii c) (lower r)
  end.
Fixpoint upper (s : string) : string :=
  match s with
  | EmptyString => EmptyString
  | String c r => String (upper_ascii c) (upper r)
  end.

(** [str.isspace()] on one ASCII character: TAB, LF, VT, FF, CR, the
    separators 0x1c-0x1f and the space. *)
Definition isspace (c : ascii) : bool :=
  let n := N_of_ascii c in
  between 9 13 n || between 28 32 n.

Fixpoint lstrip (s : string) : string :=
  match s with
  | EmptyString => EmptyString
  | String c r => if isspace c then lstrip r else s
  end.
Fixpoint rstrip (s : string) : string :=
  match s with
  | EmptyString => EmptyString
  | String c r =>
      let r' := rstrip r in
      if isspace c && String.eqb r' EmptyString then EmptyString else String c r'
  end.
(** [str.strip()]. *)
Definition strip (s : string) : string := rstrip (lstrip s).

(** Truth value of a [str] and of an [Optional[str]]. *)
Definition truthy (s : string) : bool := negb (String.eqb s EmptyString).
Definition truthy_opt (o : option string) : bool :=
  match o with Some s => truthy s | None => false end.

(** [s or None] for a [str]. *)
Definition or_None (s : string) : option string :=
  if truthy s then Some s else None.

(** A [pathlib.PurePosixPath]: the anchor (empty or the root) and the
    parts after it. *)
Record Path := { anchor : string; parts : list string }.

(** [str(path)]. *)
Definition str_of_Path (p : Path) : string :=
  match anchor p, parts p with
  | EmptyString, [] => "."
  | a, ps => a +:+ String.concat "/" ps
  end.

(** [text.split(sep)]. *)
Fixpoint split (sep : ascii) (text : string) : list string :=
  match text with
  | EmptyString => [EmptyString]
  | String c r =>
      if Ascii.eqb c sep then EmptyString :: split sep r
      else match split sep r with
           | h :: t => String c h :: t
           | [] => [String c EmptyString]
           end
  end.

(** [PurePosixPath(text)]: one leading slash, or three and more, anchor the
    path at the root, exactly two are kept as they are; empty parts and
    single dots are dropped. *)
Definition Path_of_str (text : string) : Path :=
  let anchor :=
    match text with
    | String "/" (String "/" (String "/" _)) => "/"
    | String "/" (String "/" _) => "//"
    | String "/" _ => "/"
    | _ => ""
    end in
  {| anchor := anchor;
     parts := filter (λ p, p ≠ "" ∧ p ≠ ".") (split "/" text) |}.

(** [path / name] for a plain file name [name] (no separator, not empty,
    not a dot). *)
Definition joinpath (p : Path) (name : string) : Path :=
  {| anchor := anchor p; parts := parts p ++ [name] |}.

(** [d.get(k, default)] on a [dict] kept as its list of items. *)
Fixpoint dict_get {V : Type} (d : list (string * V)) (k : string) (dflt : V) : V :=
  match d with
  | [] => dflt
  | (k', v) :: d' => if String.eqb k' k then v else dict_get d' k dflt
  end.

End Py.

Import Py.

(** ** [src/config/settings.py] *)

Module RunSettings.
Record t := {
  project_root : Path;
  logs_dir : Path;
  data_dir : Path;
  cache_dir : Path;
  log_level : string
}.
End RunSettings.

Module RadioSettings.
Record t := { uri_by_channel : list (string * string) }.
End RadioSettings.

Module SwarmSettings.
Record t := { enabled : bool; channels : option (list string) }.
End SwarmSettings.

Module VisionSettings.
Record t := {
  enabled : bool;
  control_enabled : bool;
  camera_index : option Z;
  camera_url : option string;
  aruco_dict_name : string;
  marker_size_m : spec_float;
  show_window : bool
}.
End VisionSettings.

Module FeatureFlags.
Record t := { waypoints : bool }.
End FeatureFlags.

Module Settings.
Record t := {
  mode : string;
  dry_run : bool;
  run : RunSettings.t;
  radio : RadioSettings.t;
  swarm : SwarmSettings.t;
  vision : VisionSettings.t;
  features : FeatureFlags.t;
  uri : option string
}.
End Settings.

(** ** [src/cli/main.py] *)

Module CliArgs.
Record t := {
  mode : string;
  channel : option string;
  channels : option (list string);
  vision : bool;
  control : bool;
  waypoints : bool;
  dry_run : bool;
  log_level : option string
}.
End CliArgs.

(** The [argparse.Namespace] that [build_parser().parse_args] returns.
    [mode], [dry_run] and [log_level] are set by the top-level parser; the
    other attributes are set by the chosen sub-parser, and the source reads
    them either with [getattr(ns, name, default)] or directly. *)
Module Namespace.
Record t := {
  mode : string;
  dry_run : bool;
  log_level : option string;
  vision : option bool;
  control : option bool;
  waypoints : option bool;
  extras : option (list string);
  channel : option string;
  channels : option (list string)
}.
End Namespace.

Module cli.

Definition _EXTRA_TOKENS : gset string :=
  {[ "vision"; "control"; "waypoint"; "waypoints" ]}.

Definition _parse_extras (extras : list string) : BaseException + (bool * bool * bool) :=
  let s : gset string := list_to_set (lower <$> extras) in
  let vision := bool_decide ("vision" ∈ s) in
  let control := bool_decide ("control" ∈ s) in
  let waypoints := bool_decide ("waypoint" ∈ s) || bool_decide ("waypoints" ∈ s) in
  if control && negb vision
  then inl (ValueError "`control` requires `vision` (click-to-go needs vision).")
  else inr (vision, control, waypoints).

Section parse_args.

(** [build_parser().parse_args(argv)]: the namespace, or the status of
    the [SystemExit] with which argparse rejects the command line. *)
Variable argparse : list string -> Z + Namespace.t.

Definition parse_args (argv : list string) : Abort + CliArgs.t :=
  match argparse argv with
  | inl status => inl (SystemExit (ExitCode status))
  | inr ns =>
      let extras := default [] (Namespace.extras ns) in
      let token_extras := filter (λ e, lower e ∈ _EXTRA_TOKENS) extras in
      let tokens :=
        match token_extras with
        | [] => inr (false, false, false)
        | _ :: _ => _parse_extras token_extras
        end in
      match tokens with
      | inl e => inl (Raised e)
      | inr (token_vision, token_control, token_waypoints) =>
          let vision := default false (Namespace.vision ns) || token_vision in
          let control := default false (Namespace.control ns) || token_control in
          let waypoints := default false (Namespace.waypoints ns) || token_waypoints in
          if control && negb vision
          then inl (SystemExit (ExitMsg "Error: --control requires --vision (click-to-go needs vision)."))
          else
            let mode := Namespace.mode ns in
            if String.eqb mode "udp" then
              inr {| CliArgs.mode := "udp"; CliArgs.channel := None;
                     CliArgs.channels := None;
                     CliArgs.vision := vision; CliArgs.control := control;
                     CliArgs.waypoints := waypoints;
                     CliArgs.dry_run := Namespace.dry_run ns;
                     CliArgs.log_level := Namespace.log_level ns |}
            else if String.eqb mode "radio" then
              match Namespace.channel ns with
              | None => inl (Raised (AttributeError "'Namespace' object has no attribute 'channel'"))
              | Some ch =>
                  inr {| CliArgs.mode := "radio"; CliArgs.channel := Some ch;
                         CliArgs.channels := None;
                         CliArgs.vision := vision; CliArgs.control := control;
                         CliArgs.waypoints := waypoints;
                         CliArgs.dry_run := Namespace.dry_run ns;
                         CliArgs.log_level := Namespace.log_level ns |}
              end
            else if String.eqb mode "swarm" then
              match Namespace.channels ns with
              | None => inl (Raised (AttributeError "'Namespace' object has no attribute 'channels'"))
              | Some chs =>
                  inr {| CliArgs.mode := "swarm"; CliArgs.channel := None;
                         CliArgs.channels := Some chs;
                         CliArgs.vision := vision; CliArgs.control := control;
                         CliArgs.waypoints := waypoints;
                         CliArgs.dry_run := Namespace.dry_run ns;
                         CliArgs.log_level := Namespace.log_level ns |}
              end
            else inl (SystemExit (ExitMsg ("Unknown mode: " +:+ mode)))
      end
  end.

(** The words of the specification: a feature is requested by its flag
    or by a trailing token. *)
Definition has_token (tok : string) (ns : Namespace.t) : Prop :=
  tok ∈ lower <$> default [] (Namespace.extras ns).
Definition flag (f : Namespace.t -> option bool) (ns : Namespace.t) : bool :=
  default false (f ns).

End parse_args.

End cli.

(** ** [src/config/__init__.py] *)

Module config.

Section load_settings_from_env.

(** [os.getenv] once [load_dotenv()] has run. *)
Variable getenv : string -> option string.
(** [_project_root()]: two levels above the directory of the module. *)
Variable _project_root : Path.
(** [int(text)] and [float(text)]; [None] stands for the [ValueError]
    they raise. *)
Variable int_of_str : string -> option Z.
Variable float_of_str : string -> option spec_float.

(** [os.getenv(name, default)]. *)
Definition os_getenv (name dflt : string) : string := default dflt (getenv name).

Definition load_settings_from_env
    (mode : string) (dry_run : bool)
    (channel : option string) (channels : option (list string))
    (vision control waypoints : bool) (log_level : option string)
  : BaseException + Settings.t :=
  let root := _project_root in
  let logs_dir := Path_of_str (os_getenv "NEST_LOGS_DIR" (str_of_Path (joinpath root "logs"))) in
  let data_dir := Path_of_str (os_getenv "NEST_DATA_DIR" (str_of_Path (joinpath root "data"))) in
  let cache_dir := Path_of_str (os_getenv "NEST_CACHE_DIR" (str_of_Path (joinpath root "cache"))) in
  let uri_by_channel :=
    [ ("7", strip (os_getenv "RADIO_CHANNEL_7" ""));
      ("8", strip (os_getenv "RADIO_CHANNEL_8" ""));
      ("9", strip (os_getenv "RADIO_CHANNEL_9" "")) ] in
  let run :=
    {| RunSettings.project_root := root;
       RunSettings.logs_dir := logs_dir;
       RunSettings.data_dir := data_dir;
       RunSettings.cache_dir := cache_dir;
       RunSettings.log_level :=
         upper (if truthy_opt log_level then default "" log_level
                else os_getenv "NEST_LOG_LEVEL" "INFO") |} in
  let radio := {| RadioSettings.uri_by_channel := uri_by_channel |} in
  let swarm :=
    {| SwarmSettings.enabled := String.eqb mode "swarm";
       SwarmSettings.channels := if String.eqb mode "swarm" then channels else None |} in
  let cam_index_env := strip (os_getenv "NEST_CAMERA_INDEX" "") in
  match (if truthy cam_index_env
         then match int_of_str cam_index_env with
              | Some i => inr (Some i)
              | None => inl (ValueError ("invalid literal for int() with base 10: " +:+ cam_index_env))
              end
         else inr None) with
  | inl e => inl e
  | inr camera_index =>
      let camera_url := or_None (strip (os_getenv "NEST_CAMERA_URL" "")) in
      match float_of_str (os_getenv "NEST_MARKER_SIZE_M" "0.040") with
      | None => inl (ValueError ("could not convert string to float: "
                                 +:+ os_getenv "NEST_MARKER_SIZE_M" "0.040"))
      | Some marker_size =>
          let vision_settings :=
            {| VisionSettings.enabled := vision;
               VisionSettings.control_enabled := control;
               VisionSettings.camera_index := camera_index;
               VisionSettings.camera_url := camera_url;
               VisionSettings.aruco_dict_name := os_getenv "NEST_ARUCO_DICT" "DICT_4X4_50";
               VisionSettings.marker_size_m := marker_size;
               VisionSettings.show_window :=
                 negb (bool_decide (os_getenv "NEST_VISION_SHOW_WINDOW" "1"
                                      ∈ ({[ "0"; "false"; "False" ]} : gset string))) |} in
          let features := {| FeatureFlags.waypoints := waypoints |} in
          let finish (uri : option string) : BaseException + Settings.t :=
            inr {| Settings.mode := mode;
                   Settings.dry_run := dry_run;
                   Settings.run := run;
                   Settings.radio := radio;
                   Settings.swarm := swarm;
                   Settings.vision := vision_settings;
                   Settings.features := features;
                   Settings.uri := uri |} in
          (* Resolve URI (for radio mode) *)
          let radio_step : BaseException + option string :=
            if String.eqb mode "radio" then
              if negb (truthy_opt channel) then
                inl (ValueError "mode=radio requires channel")
              else
                let ch := default "" channel in
                let uri := or_None (strip (dict_get (RadioSettings.uri_by_channel radio) ch "")) in
                if negb dry_run && negb (truthy_opt uri) then
                  inl (ValueError ("No URI configured for channel=" +:+ ch
                                   +:+ ". Set RADIO_CHANNEL_" +:+ ch +:+ " in .env"))
                else inr uri
            else inr None in
          match radio_step with
          | inl e => inl e
          | inr uri =>
              (* UDP mode: URI might come from env *)
              if String.eqb mode "udp" then
                let uri := or_None (strip (os_getenv "CF_URI_UDP" "")) in
                if negb dry_run && negb (truthy_opt uri) then
                  inl (ValueError "No CF_URI_UDP configured for udp mode.")
                else finish uri
              else finish uri
          end
      end
  end.

End load_settings_from_env.

End config.

(** ** Python objects, [dataclasses.asdict] and the JSON fragment *)

Module Obj.

(** The objects that a settings value is made of.  [PData] is an instance
    of a dataclass with its fields in declaration order.  The dicts are those
    with [str] keys, kept as their lists of items: the only dict of a
    settings value, [uri_by_channel], has such keys, and so have the dicts
    that [dataclasses.asdict] builds. *)
Inductive pyval :=
| PNone
| PBool (b : bool)
| PInt (i : Z)
| PFloat (f : spec_float)
| PStr (s : string)
| PPath (p : Path)
| PList (l : list pyval)
| PTuple (l : list pyval)
| PDict (items : list (string * pyval))
| PData (cls : string) (fields : list (string * pyval)).

(** [dataclasses._asdict_inner]: dataclass instances become dicts, the
    containers are rebuilt, everything else is copied. *)
Fixpoint _asdict_inner (obj : pyval) : pyval :=
  match obj with
  | PData _ fields => PDict (map (λ kv, (kv.1, _asdict_inner kv.2)) fields)
  | PList l => PList (map _asdict_inner l)
  | PTuple l => PTuple (map _asdict_inner l)
  | PDict items => PDict (map (λ kv, (kv.1, _asdict_inner kv.2)) items)
  | _ => obj
  end.

(** [dataclasses.asdict(obj).items()] for a dataclass instance [obj]. *)
Definition asdict_items (obj : pyval) : list (string * pyval) :=
  match _asdict_inner obj with
  | PDict items => items
  | _ => []
  end.

Fixpoint pyval_size (v : pyval) : nat :=
  match v with
  | PList l | PTuple l => S (list_sum (map pyval_size l))
  | PDict kv | PData _ kv => S (list_sum (map (λ kv, pyval_size kv.2) kv))
  | _ => 1
  end.

(** A comprehension whose body may use that the element is in the list. *)
Fixpoint comprehension {A B : Type} (l : list A) : (∀ x, In x l → B) → list B :=
  match l with
  | [] => λ _, []
  | x :: l' => λ f, f x (or_introl eq_refl) :: comprehension l' (λ y H, f y (or_intror H))
  end.

(** What [json.dumps] accepts without a [TypeError]. *)
Fixpoint json_serializable (v : pyval) : bool :=
  match v with
  | PPath _ | PData _ _ => false
  | PList l | PTuple l => forallb json_serializable l
  | PDict items => forallb (λ kv, json_serializable kv.2) items
  | _ => true
  end.

(** What [json.loads] can return: no tuple either. *)
Fixpoint json_value (v : pyval) : bool :=
  match v with
  | PPath _ | PData _ _ | PTuple _ => false
  | PList l => forallb json_value l
  | PDict items => forallb (λ kv, json_value kv.2) items
  | _ => true
  end.

Definition opt {A : Type} (f : A -> pyval) (o : option A) : pyval :=
  match o with Some x => f x | None => PNone end.

(** The settings dataclasses as objects. *)
Definition of_RunSettings (r : RunSettings.t) : pyval :=
  PData "RunSettings"
    [ ("project_root", PPath (RunSettings.project_root r));
      ("logs_dir", PPath (RunSettings.logs_dir r));
      ("data_dir", PPath (RunSettings.data_dir r));
      ("cache_dir", PPath (RunSettings.cache_dir r));
      ("log_level", PStr (RunSettings.log_level r)) ].
Definition of_RadioSettings (r : RadioSettings.t) : pyval :=
  PData "RadioSettings"
    [ ("uri_by_channel",
       PDict (map (λ kv, (kv.1, PStr kv.2)) (RadioSettings.uri_by_channel r))) ].
Definition of_SwarmSettings (r : SwarmSettings.t) : pyval :=
  PData "SwarmSettings"
    [ ("enabled", PBool (SwarmSettings.enabled r));
      ("channels", opt (λ l, PList (map PStr l)) (SwarmSettings.channels r)) ].
Definition of_VisionSettings (r : VisionSettings.t) : pyval :=
  PData "VisionSettings"
    [ ("enabled", PBool (VisionSettings.enabled r));
      ("control_enabled", PBool (VisionSettings.control_enabled r));
      ("camera_index", opt PInt (VisionSettings.camera_index r));
      ("camera_url", opt PStr (VisionSettings.camera_url r));
      ("aruco_dict_name", PStr (VisionSettings.aruco_dict_name r));
      ("marker_size_m", PFloat (VisionSettings.marker_size_m r));
      ("show_window", PBool (VisionSettings.show_window r)) ].
Definition of_FeatureFlags (r : FeatureFlags.t) : pyval :=
  PData "FeatureFlags" [ ("waypoints", PBool (FeatureFlags.waypoints r)) ].
Definition of_Settings (s : Settings.t) : pyval :=
  PData "Settings"
    [ ("mode", PStr (Settings.mode s));
      ("dry_run", PBool (Settings.dry_run s));
      ("run", of_RunSettings (Settings.run s));
      ("radio", of_RadioSettings (Settings.radio s));
      ("swarm", of_SwarmSettings (Settings.swarm s));
      ("vision", of_VisionSettings (Settings.vision s));
      ("features", of_FeatureFlags (Settings.features s));
      ("uri", opt PStr (Settings.uri s)) ].

End Obj.

Import Obj.

(** ** [src/core/runner.py] *)

(** The collaborators of the runner.  A handle is the object that a
    constructor call returns, kept as the arguments it was built from. *)

Inductive channel_arg :=
| ChUri (uri : string)
| ChList (channels : list string)
| ChNone.

Module DroneConnection.
Record t := { mode : string; channel : channel_arg }.
End DroneConnection.

Module DroneLogs.
Record t := { drone : DroneConnection.t }.
End DroneLogs.

Module SwarmCommand.
Record t := { channels : option (list string) }.
End SwarmCommand.

Module DetectorRT.
Record t := {
  camera_index : option Z;
  camera_url : option string;
  marker_size_m : spec_float;
  aruco_dict_name : string;
  show_window : bool
}.
End DetectorRT.

(** [Thread(target=detector.run, daemon=...)]. *)
Module Thread.
Record t := { target : DetectorRT.t; daemon : bool }.
End Thread.

Module Command.
Record t := {
  drone : DroneConnection.t;
  logs : DroneLogs.t;
  swarm : option SwarmCommand.t;
  vision : bool;
  control : bool;
  waypoint : bool
}.
End Command.

Module runner.

(** Every call that leaves the runner, in the order in which it is made. *)
Inductive Event :=
| basicConfig (level_name : string)
| mkdir (path : Path) (parents exist_ok : bool)
| write_text (path : Path) (data : string) (encoding : string)
| log_info (msg : string)
| log_exception (msg : string) (e : BaseException)
| import_from (module_name name : string)
| DroneConnection_init (d : DroneConnection.t)
| DroneLogs_init (l : DroneLogs.t)
| SwarmCommand_init (s : SwarmCommand.t)
| DetectorRT_init (d : DetectorRT.t)
| Thread_init (t : Thread.t)
| Thread_start (t : Thread.t)
| Command_init (c : Command.t)
| Command_set_detector (c : Command.t) (d : DetectorRT.t) (t : option Thread.t)
| Command_run (c : Command.t)
| DetectorRT_stop (d : DetectorRT.t)
| Thread_is_alive (t : Thread.t)
| Thread_join (t : Thread.t) (timeout : spec_float)
| SwarmCommand_close (s : SwarmCommand.t)
| DroneLogs_close (l : DroneLogs.t)
| DroneConnection_close (d : DroneConnection.t).

(** How the collaborators answer: for each call of [run], what it raises,
    if anything ([None]: the call returns), an instance of [Exception] or
    not.  Every call is made at most once in a run, and is assumed to return
    or to raise. *)
Record World := {
  basicConfig_raises : option BaseException;
  mkdir_raises : option BaseException;
  write_text_raises : option BaseException;
  import_raises : string -> option BaseException;
  DroneConnection_raises : option BaseException;
  DroneLogs_raises : option BaseException;
  SwarmCommand_raises : option BaseException;
  DetectorRT_raises : option BaseException;
  Thread_raises : option BaseException;
  start_raises : option BaseException;
  Command_raises : option BaseException;
  set_detector_raises : option BaseException;
  run_raises : option BaseException;
  stop_raises : option BaseException;
  is_alive_result : BaseException + bool;
  join_raises : option BaseException;
  swarm_close_raises : option BaseException;
  logs_close_raises : option BaseException;
  drone_close_raises : option BaseException
}.

(** The handle variables of [run], all [None] before the [try]. *)
Record Locals := {
  drone : option DroneConnection.t;
  drone_logs : option DroneLogs.t;
  swarm : option SwarmCommand.t;
  detector : option DetectorRT.t;
  detector_thread : option Thread.t
}.

Definition no_handles : Locals :=
  {| drone := None; drone_logs := None; swarm := None;
     detector := None; detector_thread := None |}.

(** Statements: they read and assign the handle variables, make calls,
    and either complete with a value or raise.  A statement maps the handle
    variables before it to the handle variables after it, the calls it made,
    and its outcome. *)
Definition M (A : Type) : Type := Locals -> Locals * list Event * (BaseException + A).

#[export] Instance M_ret : MRet M := λ A x f, (f, [], inr x).
#[export] Instance M_bind : MBind M := λ A B k m f,
  match m f with
  | (f', tr, inl e) => (f', tr, inl e)
  | (f', tr, inr x) => let '(f'', tr', r) := k x f' in (f'', (tr ++ tr')%list, r)
  end.

Definition raise {A : Type} (e : BaseException) : M A := λ f, (f, [], inl e).

Definition emit (ev : Event) : M unit := λ f, (f, [ev], inr tt).

(** A call to a collaborator: recorded, then it returns or raises. *)
Definition call (ev : Event) (raises : option BaseException) : M unit :=
  emit ev ;;
  match raises with
  | Some e => raise e
  | None => mret tt
  end.

Definition get_locals : M Locals := λ f, (f, [], inr f).
Definition assign (g : Locals -> Locals) : M unit := λ f, (g f, [], inr tt).

(** [try: body except Exception as e: handler]: the handler runs for the
    instances of [Exception]; anything else that [body] raises passes. *)
Definition try_except {A : Type} (body : M A) (handler : BaseException -> M A) : M A :=
  λ f,
    match body f with
    | (f', tr, inl e) =>
        if isinstance e "Exception"
        then let '(f'', tr', r) := handler e f' in (f'', (tr ++ tr')%list, r)
        else (f', tr, inl e)
    | (f', tr, inr x) => (f', tr, inr x)
    end.

(** [try: body finally: final]: [final] always runs; the outcome is that
    of [body], value or exception, unless [final] itself raises, which
    discards it. *)
Definition try_finally {A : Type} (body : M A) (final : M unit) : M A :=
  λ f,
    match body f with
    | (f', tr, r) =>
        match final f' with
        | (f'', tr', inl e) => (f'', (tr ++ tr')%list, inl e)
        | (f'', tr', inr _) => (f'', (tr ++ tr')%list, r)
        end
    end.

Definition import (w : World) (module_name name : string) : M unit :=
  call (import_from module_name name) (import_raises w module_name).

(** [_setup_logging(level)]: the call
    [logging.basicConfig(level=getattr(logging, level.upper(), logging.INFO), format=...)]. *)
Definition _setup_logging (w : World) (level : string) : M unit :=
  call (basicConfig (upper level)) (basicConfig_raises w).

(** Termination of [_safe_asdict]: the recursive calls are on members of
    [asdict(obj)], a list, a tuple or a dict, all smaller than the object. *)
Lemma pyval_size_In (l : list pyval) (x : pyval) :
  In x l → (pyval_size x ≤ list_sum (map pyval_size l))%nat.
Proof.
  induction l as [|y l IH]; simpl; [tauto|].
  intros [->|H]; [lia|]. specialize (IH H). lia.
Qed.

Lemma pyval_size_In_items (l : list (string * pyval)) (x : string * pyval) :
  In x l → (pyval_size x.2 ≤ list_sum (map (λ kv, pyval_size kv.2) l))%nat.
Proof.
  induction l as [|y l IH]; simpl; [tauto|].
  intros [->|H]; [lia|]. specialize (IH H). lia.
Qed.

Lemma _asdict_inner_size (v : pyval) : pyval_size (_asdict_inner v) = pyval_size v.
Proof.
  revert v. fix IH 1.
  intros [ | | | | | | l | l | l | c l]; simpl; try reflexivity; f_equal.
  - induction l; simpl; [reflexivity|]. rewrite IH, IHl. reflexivity.
  - induction l; simpl; [reflexivity|]. rewrite IH, IHl. reflexivity.
  - induction l as [|[k v] l]; simpl; [reflexivity|]. rewrite IH, IHl. reflexivity.
  - induction l as [|[k v] l]; simpl; [reflexivity|]. rewrite IH, IHl. reflexivity.
Qed.

Lemma asdict_items_size (cls : string) (fields : list (string * pyval)) (x : string * pyval) :
  In x (asdict_items (PData cls fields)) → (pyval_size x.2 < pyval_size (PData cls fields))%nat.
Proof.
  intros H. pose proof (pyval_size_In_items _ _ H) as Hs.
  pose proof (_asdict_inner_size (PData cls fields)) as E.
  unfold asdict_items in Hs. simpl in *. lia.
Qed.

(** Best-effort conversion for writing settings snapshots. *)
Equations? _safe_asdict (obj : pyval) : pyval by wf (pyval_size obj) lt :=
  _safe_asdict (PData cls fields) :=
    PDict (comprehension (asdict_items (PData cls fields))
             (λ kv H, (kv.1, _safe_asdict kv.2)));
  _safe_asdict (PDict items) :=
    PDict (comprehension items (λ kv H, (kv.1, _safe_asdict kv.2)));
  _safe_asdict (PList l) := PList (comprehension l (λ v H, _safe_asdict v));
  _safe_asdict (PTuple l) := PList (comprehension l (λ v H, _safe_asdict v));
  _safe_asdict (PPath p) := PStr (str_of_Path p);
  _safe_asdict obj := obj.
Proof.
  all: try (pose proof (pyval_size_In _ _ H); simpl in *; lia).
  all: try (pose proof (pyval_size_In_items _ _ H); simpl in *; lia).
  apply (asdict_items_size cls fields (s, p) H).
Defined.

Section run.

(** [json.dumps(obj, indent=2)] on an object that it accepts. *)
Variable json_dumps : pyval -> string.

Definition _write_settings_snapshot (w : World) (settings : Settings.t) (out_dir : Path) : M unit :=
  call (mkdir out_dir true true) (mkdir_raises w) ;;
  let snapshot_path := joinpath out_dir "settings.json" in
  let obj := _safe_asdict (of_Settings settings) in
  if json_serializable obj
  then call (write_text snapshot_path (json_dumps obj) "utf-8") (write_text_raises w)
  else raise (TypeError "Object is not JSON serializable").

(** [settings.uri or settings.swarm.channels]. *)
Definition uri_or_channels (settings : Settings.t) : channel_arg :=
  if truthy_opt (Settings.uri settings)
  then ChUri (default "" (Settings.uri settings))
  else match SwarmSettings.channels (Settings.swarm settings) with
       | Some chs => ChList chs
       | None => ChNone
       end.

(** The timeout [2.0] of the join. *)
Definition join_timeout : spec_float := S754_finite false 4503599627370496 (-51).

(** The body of the [try] of [run]. *)
Definition init_and_loop (w : World) (settings : Settings.t) : M Z :=
  import w "drones.drone_connection" "DroneConnection" ;;
  import w "drones.drone_log" "DroneLogs" ;;

  emit (log_info ("Initializing drone connection (mode=" +:+ Settings.mode settings +:+ ")...")) ;;
  let d := {| DroneConnection.mode := Settings.mode settings;
              DroneConnection.channel := uri_or_channels settings |} in
  call (DroneConnection_init d) (DroneConnection_raises w) ;;
  assign (λ f, {| drone := Some d; drone_logs := drone_logs f; swarm := swarm f;
                  detector := detector f; detector_thread := detector_thread f |}) ;;

  emit (log_info "Initializing telemetry logging...") ;;
  let l := {| DroneLogs.drone := d |} in
  call (DroneLogs_init l) (DroneLogs_raises w) ;;
  assign (λ f, {| drone := drone f; drone_logs := Some l; swarm := swarm f;
                  detector := detector f; detector_thread := detector_thread f |}) ;;

  (if String.eqb (Settings.mode settings) "swarm" then
     import w "swarm.swarm_command" "SwarmCommand" ;;
     emit (log_info "Initializing swarm controller...") ;;
     let s := {| SwarmCommand.channels := SwarmSettings.channels (Settings.swarm settings) |} in
     call (SwarmCommand_init s) (SwarmCommand_raises w) ;;
     assign (λ f, {| drone := drone f; drone_logs := drone_logs f; swarm := Some s;
                     detector := detector f; detector_thread := detector_thread f |})
   else mret tt) ;;

  (if VisionSettings.enabled (Settings.vision settings) then
     import w "threading" "Thread" ;;
     import w "vision.vision" "DetectorRT" ;;
     emit (log_info "Starting vision detector thread...") ;;
     let v := Settings.vision settings in
     let det := {| DetectorRT.camera_index := VisionSettings.camera_index v;
                   DetectorRT.camera_url := VisionSettings.camera_url v;
                   DetectorRT.marker_size_m := VisionSettings.marker_size_m v;
                   DetectorRT.aruco_dict_name := VisionSettings.aruco_dict_name v;
                   DetectorRT.show_window := VisionSettings.show_window v |} in
     call (DetectorRT_init det) (DetectorRT_raises w) ;;
     assign (λ f, {| drone := drone f; drone_logs := drone_logs f; swarm := swarm f;
                     detector := Some det; detector_thread := detector_thread f |}) ;;
     let t := {| Thread.target := det; Thread.daemon := true |} in
     call (Thread_init t) (Thread_raises w) ;;
     assign (λ f, {| drone := drone f; drone_logs := drone_logs f; swarm := swarm f;
                     detector := detector f; detector_thread := Some t |}) ;;
     call (Thread_start t) (start_raises w)
   else mret tt) ;;

  import w "core.command" "Command" ;;
  emit (log_info "Launching command/UI loop...") ;;
  f ← get_locals ;
  let cmd := {| Command.drone := d;
                Command.logs := l;
                Command.swarm := swarm f;
                Command.vision := VisionSettings.enabled (Settings.vision settings);
                Command.control := VisionSettings.control_enabled (Settings.vision settings);
                Command.waypoint := FeatureFlags.waypoints (Settings.features settings) |} in
  call (Command_init cmd) (Command_raises w) ;;

  match detector f with
  | Some det => call (Command_set_detector cmd det (detector_thread f)) (set_detector_raises w)
  | None => mret tt
  end ;;

  call (Command_run cmd) (run_raises w) ;;
  emit (log_info "Run completed normally.") ;;
  mret 0%Z.

(** The four guarded blocks of the [finally] of [run]. *)

(* Vision *)
Definition vision_shutdown (w : World) : M unit :=
  try_except
    (f ← get_locals ;
     match detector f with
     | Some det => call (DetectorRT_stop det) (stop_raises w)
     | None => mret tt
     end ;;
     match detector_thread f with
     | Some t =>
         emit (Thread_is_alive t) ;;
         match is_alive_result w with
         | inl e => raise e
         | inr true => call (Thread_join t join_timeout) (join_raises w)
         | inr false => mret tt
         end
     | None => mret tt
     end)
    (λ e, emit (log_exception "Error during vision shutdown." e)).

(* Swarm *)
Definition swarm_shutdown (w : World) : M unit :=
  try_except
    (f ← get_locals ;
     match swarm f with
     | Some s => call (SwarmCommand_close s) (swarm_close_raises w)
     | None => mret tt
     end)
    (λ e, emit (log_exception "Error during swarm shutdown." e)).

(* Drone / logs *)
Definition log_shutdown (w : World) : M unit :=
  try_except
    (f ← get_locals ;
     match drone_logs f with
     | Some l => call (DroneLogs_close l) (logs_close_raises w)
     | None => mret tt
     end)
    (λ e, emit (log_exception "Error during log shutdown." e)).

Definition drone_shutdown (w : World) : M unit :=
  try_except
    (f ← get_locals ;
     match drone f with
     | Some d => call (DroneConnection_close d) (drone_close_raises w)
     | None => mret tt
     end)
    (λ e, emit (log_exception "Error during drone shutdown." e)).

(** The body of the [finally] of [run]. *)
Definition teardown (w : World) : M unit :=
  emit (log_info "Shutting down subsystems...") ;;
  vision_shutdown w ;;
  swarm_shutdown w ;;
  log_shutdown w ;;
  drone_shutdown w.

(** The statements of [run], from the first to the last. *)
Definition run_body (w : World) (settings : Settings.t) : M Z :=
  _setup_logging w (RunSettings.log_level (Settings.run settings)) ;;

  (* Always snapshot resolved config for reproducibility. *)
  _write_settings_snapshot w settings (RunSettings.logs_dir (Settings.run settings)) ;;

  if Settings.dry_run settings then
    emit (log_info "Dry-run enabled: skipping hardware + vision initialization.") ;;
    mret 0%Z
  else
    try_finally
      (try_except
         (init_and_loop w settings)
         (λ e, emit (log_exception ("Fatal error in runner: " +:+ exc_msg e) e) ;; mret 1%Z))
      (teardown w).

(** [run(settings)]: the calls it makes, and the value it returns or the
    exception that leaves it. *)
Definition run (w : World) (settings : Settings.t) : list Event * (BaseException + Z) :=
  let '(_, tr, r) := run_body w settings no_handles in
  (tr, r).

End run.

End runner.

(** ** The vocabulary of the specification *)

Module lifecycle.

Import runner.

(** A call returned. *)
Definition returned (o : option BaseException) : bool :=
  match o with None => true | Some _ => false end.

(** The exception is one that the handlers [except Exception] of the runner
    intercept. *)
Definition caught (e : BaseException) : bool := isinstance e "Exception".

(** A call returned, or raised an instance of [Exception]. *)
Definition ordinary (o : option BaseException) : bool :=
  match o with None => true | Some e => caught e end.

(** Logging setup and the snapshot write completed. *)
Definition snapshot_written (w : World) : bool :=
  returned (basicConfig_raises w) && returned (mkdir_raises w)
  && returned (write_text_raises w).

(** The calls by which subsystems are built and driven, as opposed to
    logging, the snapshot and imports. *)
Definition constructor_call (ev : Event) : bool :=
  match ev with
  | DroneConnection_init _ | DroneLogs_init _ | SwarmCommand_init _
  | DetectorRT_init _ | Thread_init _ | Command_init _ => true
  | _ => false
  end.

(** The initialization sequence: constructors, the start of the execution
    unit, the registration of the detector and the blocking loop. *)
Definition init_call (ev : Event) : bool :=
  match ev with
  | Thread_start _ | Command_set_detector _ _ _ | Command_run _ => true
  | _ => constructor_call ev
  end.

(** The shutdown operations of the handles that constructors return: the
    stop signal and the three closes. *)
Definition close_call (ev : Event) : bool :=
  match ev with
  | DetectorRT_stop _ | SwarmCommand_close _ | DroneLogs_close _
  | DroneConnection_close _ => true
  | _ => false
  end.

(** The shutdown operation of the execution unit. *)
Definition join_call (ev : Event) : bool :=
  match ev with Thread_join _ _ => true | _ => false end.

(** The five shutdown steps. *)
Definition shutdown_call (ev : Event) : bool := close_call ev || join_call ev.

(** Everything that touches a subsystem. *)
Definition subsystem_call (ev : Event) : bool :=
  match ev with
  | basicConfig _ | mkdir _ _ _ | write_text _ _ _ | log_info _ | log_exception _ _ => false
  | _ => true
  end.

Definition present {A : Type} (call : A -> Event) (handle : option A) : list Event :=
  match handle with Some h => [call h] | None => [] end.

(** The join that the vision block reaches: the unit is present, the stop
    signal (if there is a detector) returned, and the unit is alive. *)
Definition joins (w : World) (f : Locals) : list Event :=
  match detector_thread f with
  | Some t =>
      if match detector f with Some _ => returned (stop_raises w) | None => true end
      then match is_alive_result w with
           | inr true => [Thread_join t join_timeout]
           | _ => []
           end
      else []
  | None => []
  end.

(** The five shutdown steps of a teardown that is carried out to its end,
    in the fixed order: the stop signal, the join right after it, then the
    three closes. *)
Definition shutdown_sequence (w : World) (f : Locals) : list Event :=
  present DetectorRT_stop (detector f) ++ joins w f
  ++ present SwarmCommand_close (swarm f)
  ++ present DroneLogs_close (drone_logs f)
  ++ present DroneConnection_close (drone f).

(** The handles that [run] builds from a settings value. *)
Definition the_drone (s : Settings.t) : DroneConnection.t :=
  {| DroneConnection.mode := Settings.mode s;
     DroneConnection.channel := uri_or_channels s |}.
Definition the_logs (s : Settings.t) : DroneLogs.t :=
  {| DroneLogs.drone := the_drone s |}.
Definition the_swarm (s : Settings.t) : SwarmCommand.t :=
  {| SwarmCommand.channels := SwarmSettings.channels (Settings.swarm s) |}.
Definition the_detector (s : Settings.t) : DetectorRT.t :=
  let v := Settings.vision s in
  {| DetectorRT.camera_index := VisionSettings.camera_index v;
     DetectorRT.camera_url := VisionSettings.camera_url v;
     DetectorRT.marker_size_m := VisionSettings.marker_size_m v;
     DetectorRT.aruco_dict_name := VisionSettings.aruco_dict_name v;
     DetectorRT.show_window := VisionSettings.show_window v |}.
Definition the_thread (s : Settings.t) : Thread.t :=
  {| Thread.target := the_detector s; Thread.daemon := true |}.
Definition is_swarm (s : Settings.t) : bool := String.eqb (Settings.mode s) "swarm".
Definition has_vision (s : Settings.t) : bool := VisionSettings.enabled (Settings.vision s).
Definition the_command (s : Settings.t) : Command.t :=
  {| Command.drone := the_drone s;
     Command.logs := the_logs s;
     Command.swarm := if is_swarm s then Some (the_swarm s) else None;
     Command.vision := has_vision s;
     Command.control := VisionSettings.control_enabled (Settings.vision s);
     Command.waypoint := FeatureFlags.waypoints (Settings.features s) |}.

(** The fixed initialization order. *)
Definition init_order (s : Settings.t) : list Event :=
  [DroneConnection_init (the_drone s); DroneLogs_init (the_logs s)]
  ++ (if is_swarm s then [SwarmCommand_init (the_swarm s)] else [])
  ++ (if has_vision s
      then [DetectorRT_init (the_detector s); Thread_init (the_thread s);
            Thread_start (the_thread s)]
      else [])
  ++ [Command_init (the_command s)]
  ++ (if has_vision s
      then [Command_set_detector (the_command s) (the_detector s) (Some (the_thread s))]
      else [])
  ++ [Command_run (the_command s)].

(** Every call of the initialization and of the loop returns. *)
Definition init_returns (w : World) (s : Settings.t) : bool :=
  returned (import_raises w "drones.drone_connection")
  && returned (import_raises w "drones.drone_log")
  && returned (DroneConnection_raises w) && returned (DroneLogs_raises w)
  && (if is_swarm s
      then returned (import_raises w "swarm.swarm_command") && returned (SwarmCommand_raises w)
      else true)
  && (if has_vision s
      then returned (import_raises w "threading") && returned (import_raises w "vision.vision")
           && returned (DetectorRT_raises w) && returned (Thread_raises w)
           && returned (start_raises w)
      else true)
  && returned (import_raises w "core.command") && returned (Command_raises w)
  && (if has_vision s then returned (set_detector_raises w) else true)
  && returned (run_raises w).

(** The steps of the fixed initialization order at which a subsystem is
    constructed; the step of the detector falls into three calls: the
    constructor of the detector, the constructor of its execution unit and
    the start of the unit. *)
Inductive InitStep :=
| connection_step | log_reader_step | swarm_step
| detector_step | unit_step | start_step | loop_step.

(** All calls up to the constructor of a step returned. *)
Definition reaches (w : World) (s : Settings.t) (k : InitStep) : bool :=
  let conn := snapshot_written w
              && returned (import_raises w "drones.drone_connection")
              && returned (import_raises w "drones.drone_log") in
  let logs := conn && returned (DroneConnection_raises w) in
  let swarm := logs && returned (DroneLogs_raises w) in
  let after_swarm :=
    swarm && (if is_swarm s
              then returned (import_raises w "swarm.swarm_command")
                   && returned (SwarmCommand_raises w)
              else true) in
  match k with
  | connection_step => conn
  | log_reader_step => logs
  | swarm_step => swarm && is_swarm s && returned (import_raises w "swarm.swarm_command")
  | detector_step =>
      after_swarm && has_vision s && returned (import_raises w "threading")
      && returned (import_raises w "vision.vision")
  | unit_step =>
      after_swarm && has_vision s && returned (import_raises w "threading")
      && returned (import_raises w "vision.vision")
      && returned (DetectorRT_raises w)
  | start_step =>
      after_swarm && has_vision s && returned (import_raises w "threading")
      && returned (import_raises w "vision.vision")
      && returned (DetectorRT_raises w) && returned (Thread_raises w)
  | loop_step =>
      after_swarm
      && (if has_vision s
          then returned (import_raises w "threading")
               && returned (import_raises w "vision.vision")
               && returned (DetectorRT_raises w) && returned (Thread_raises w)
               && returned (start_raises w)
          else true)
      && returned (import_raises w "core.command")
  end.

(** The outcome of the constructor of a step (of the start of the
    execution unit at [start_step]). *)
Definition constructor_raises (w : World) (k : InitStep) : option BaseException :=
  match k with
  | connection_step => DroneConnection_raises w
  | log_reader_step => DroneLogs_raises w
  | swarm_step => SwarmCommand_raises w
  | detector_step => DetectorRT_raises w
  | unit_step => Thread_raises w
  | start_step => start_raises w
  | loop_step => Command_raises w
  end.

(** The handles constructed at the steps before a step. *)
Definition built_before (s : Settings.t) (k : InitStep) : Locals :=
  let sw := if is_swarm s then Some (the_swarm s) else None in
  match k with
  | connection_step => no_handles
  | log_reader_step =>
      {| drone := Some (the_drone s); drone_logs := None; swarm := None;
         detector := None; detector_thread := None |}
  | swarm_step =>
      {| drone := Some (the_drone s); drone_logs := Some (the_logs s); swarm := None;
         detector := None; detector_thread := None |}
  | detector_step =>
      {| drone := Some (the_drone s); drone_logs := Some (the_logs s); swarm := sw;
         detector := None; detector_thread := None |}
  | unit_step =>
      {| drone := Some (the_drone s); drone_logs := Some (the_logs s); swarm := sw;
         detector := Some (the_detector s); detector_thread := None |}
  | start_step =>
      {| drone := Some (the_drone s); drone_logs := Some (the_logs s); swarm := sw;
         detector := Some (the_detector s); detector_thread := Some (the_thread s) |}
  | loop_step =>
      {| drone := Some (the_drone s); drone_logs := Some (the_logs s); swarm := sw;
         detector := if has_vision s then Some (the_detector s) else None;
         detector_thread := if has_vision s then Some (the_thread s) else None |}
  end.

(** The answers of the collaborators during teardown. *)
Record TeardownAnswers := {
  stop_answer : option BaseException;
  is_alive_answer : BaseException + bool;
  join_answer : option BaseException;
  swarm_close_answer : option BaseException;
  logs_close_answer : option BaseException;
  drone_close_answer : option BaseException
}.

(** The world in which teardown is answered by [a] and everything before
    it as in [w]. *)
Definition with_teardown (a : TeardownAnswers) (w : World) : World :=
  {| basicConfig_raises := basicConfig_raises w;
     mkdir_raises := mkdir_raises w;
     write_text_raises := write_text_raises w;
     import_raises := import_raises w;
     DroneConnection_raises := DroneConnection_raises w;
     DroneLogs_raises := DroneLogs_raises w;
     SwarmCommand_raises := SwarmCommand_raises w;
     DetectorRT_raises := DetectorRT_raises w;
     Thread_raises := Thread_raises w;
     start_raises := start_raises w;
     Command_raises := Command_raises w;
     set_detector_raises := set_detector_raises w;
     run_raises := run_raises w;
     stop_raises := stop_answer a;
     is_alive_result := is_alive_answer a;
     join_raises := join_answer a;
     swarm_close_raises := swarm_close_answer a;
     logs_close_raises := logs_close_answer a;
     drone_close_raises := drone_close_answer a |}.

Definition teardown_of (w : World) : TeardownAnswers :=
  {| stop_answer := stop_raises w;
     is_alive_answer := is_alive_result w;
     join_answer := join_raises w;
     swarm_close_answer := swarm_close_raises w;
     logs_close_answer := logs_close_raises w;
     drone_close_answer := drone_close_raises w |}.

(** No shutdown operation raises; the execution unit is still alive. *)
Definition clean_teardown : TeardownAnswers :=
  {| stop_answer := None; is_alive_answer := inr true; join_answer := None;
     swarm_close_answer := None; logs_close_answer := None;
     drone_close_answer := None |}.

(** Whatever a shutdown operation raises is an instance of [Exception]. *)
Definition answers_ordinary (a : TeardownAnswers) : bool :=
  ordinary (stop_answer a)
  && match is_alive_answer a with inl e => caught e | inr _ => true end
  && ordinary (join_answer a) && ordinary (swarm_close_answer a)
  && ordinary (logs_close_answer a) && ordinary (drone_close_answer a).

Definition teardown_ordinary (w : World) : bool := answers_ordinary (teardown_of w).

(** The modules that [run] imports. *)
Definition imported_modules : list string :=
  [ "drones.drone_connection"; "drones.drone_log"; "swarm.swarm_command";
    "threading"; "vision.vision"; "core.command" ].

(** Whatever a call of the initialization or of the loop raises is an
    instance of [Exception]. *)
Definition init_ordinary (w : World) : bool :=
  forallb (λ m, ordinary (import_raises w m)) imported_modules
  && ordinary (DroneConnection_raises w) && ordinary (DroneLogs_raises w)
  && ordinary (SwarmCommand_raises w) && ordinary (DetectorRT_raises w)
  && ordinary (Thread_raises w) && ordinary (start_raises w)
  && ordinary (Command_raises w) && ordinary (set_detector_raises w)
  && ordinary (run_raises w).

(** The snapshot in the words of the specification: every field of the
    settings value, nested as the value is, with paths as text. *)
Definition snapshot_tree (s : Settings.t) : pyval :=
  let r := Settings.run s in
  let v := Settings.vision s in
  PDict
    [ ("mode", PStr (Settings.mode s));
      ("dry_run", PBool (Settings.dry_run s));
      ("run", PDict
         [ ("project_root", PStr (str_of_Path (RunSettings.project_root r)));
           ("logs_dir", PStr (str_of_Path (RunSettings.logs_dir r)));
           ("data_dir", PStr (str_of_Path (RunSettings.data_dir r)));
           ("cache_dir", PStr (str_of_Path (RunSettings.cache_dir r)));
           ("log_level", PStr (RunSettings.log_level r)) ]);
      ("radio", PDict
         [ ("uri_by_channel",
            PDict (map (λ kv, (kv.1, PStr kv.2))
                     (RadioSettings.uri_by_channel (Settings.radio s)))) ]);
      ("swarm", PDict
         [ ("enabled", PBool (SwarmSettings.enabled (Settings.swarm s)));
           ("channels", opt (λ l, PList (map PStr l))
                          (SwarmSettings.channels (Settings.swarm s))) ]);
      ("vision", PDict
         [ ("enabled", PBool (VisionSettings.enabled v));
           ("control_enabled", PBool (VisionSettings.control_enabled v));
           ("camera_index", opt PInt (VisionSettings.camera_index v));
           ("camera_url", opt PStr (VisionSettings.camera_url v));
           ("aruco_dict_name", PStr (VisionSettings.aruco_dict_name v));
           ("marker_size_m", PFloat (VisionSettings.marker_size_m v));
           ("show_window", PBool (VisionSettings.show_window v)) ]);
      ("features", PDict
         [ ("waypoints", PBool (FeatureFlags.waypoints (Settings.features s))) ]);
      ("uri", opt PStr (Settings.uri s)) ].

(** The non-empty URI that a session resolves to, in the words of the
    specification: the configured value of [CF_URI_UDP] for udp, of
    [RADIO_CHANNEL_<channel>] for radio with one of the channels 7, 8, 9. *)
Definition configured (getenv : string -> option string) (name : string) : option string :=
  or_None (strip (default "" (getenv name))).
Definition connection_uri (getenv : string -> option string)
    (mode : string) (channel : option string) : option string :=
  if String.eqb mode "udp" then configured getenv "CF_URI_UDP"
  else if String.eqb mode "radio" then
    match channel with
    | Some ch =>
        if bool_decide (ch ∈ ["7"; "8"; "9"])
        then configured getenv ("RADIO_CHANNEL_" +:+ ch)
        else None
    | None => None
    end
  else None.

(** The three calls that open every run: logging setup, the creation of
    the logs directory, the write of the snapshot. *)
Definition opening (json_dumps : pyval -> string) (s : Settings.t) : list Event :=
  let dir := RunSettings.logs_dir (Settings.run s) in
  [ basicConfig (upper (RunSettings.log_level (Settings.run s)));
    mkdir dir true true;
    write_text (joinpath dir "settings.json") (json_dumps (snapshot_tree s)) "utf-8" ].

(** What the handler of [run] makes of the outcome of the [try] body. *)
Definition handled (r1 : BaseException + Z) : list Event * (BaseException + Z) :=
  match r1 with
  | inl e =>
      if caught e
      then ([log_exception ("Fatal error in runner: " +:+ exc_msg e) e], inr 1%Z)
      else ([], inl e)
  | inr x => ([], inr x)
  end.

(** What the [finally] of [run] makes of the outcome that is pending when
    the teardown ends. *)
Definition after_teardown {A : Type} (r2 : BaseException + unit) (r : BaseException + A)
  : BaseException + A :=
  match r2 with
  | inl e => inl e
  | inr _ => r
  end.

End lifecycle.

(** ** Sample sessions *)

Module sample.

Import runner lifecycle.

(** The command lines [fly udp --control], [fly udp control --vision] and
    [fly udp --vision --control] as argparse reads them; every other command
    line is rejected with status 2. *)
Definition udp_namespace (vision control : bool) (extras : list string) : Namespace.t :=
  {| Namespace.mode := "udp"; Namespace.dry_run := false; Namespace.log_level := None;
     Namespace.vision := Some vision; Namespace.control := Some control;
     Namespace.waypoints := Some false; Namespace.extras := Some extras;
     Namespace.channel := None; Namespace.channels := None |}.

Definition argparse (argv : list string) : Z + Namespace.t :=
  if bool_decide (argv = ["udp"; "--control"]) then inr (udp_namespace false true [])
  else if bool_decide (argv = ["udp"; "control"; "--vision"])
       then inr (udp_namespace true false ["control"])
  else if bool_decide (argv = ["udp"; "--vision"; "--control"])
       then inr (udp_namespace true true [])
  else inl 2%Z.

(** An environment with the radio channel 7 and nothing else. *)
Definition getenv (name : string) : option string :=
  if String.eqb name "RADIO_CHANNEL_7" then Some "radio://0/7/2M/E7E7E7E707" else None.

Definition project_root : Path := {| anchor := "/"; parts := ["srv"; "nest"] |}.

(** [int] and [float] on the only texts that the samples convert. *)
Definition int_of_str (text : string) : option Z :=
  if String.eqb text "0" then Some 0%Z else None.
Definition float_of_str (text : string) : option spec_float :=
  if String.eqb text "0.040" then Some (S754_finite false 5764607523034235 (-57)) else None.

Definition run_settings : RunSettings.t :=
  {| RunSettings.project_root := project_root;
     RunSettings.logs_dir := joinpath project_root "logs";
     RunSettings.data_dir := joinpath project_root "data";
     RunSettings.cache_dir := joinpath project_root "cache";
     RunSettings.log_level := "INFO" |}.

Definition radio_table : RadioSettings.t :=
  {| RadioSettings.uri_by_channel :=
       [("7", "radio://0/7/2M/E7E7E7E707"); ("8", ""); ("9", "")] |}.

Definition vision_settings (enabled : bool) : VisionSettings.t :=
  {| VisionSettings.enabled := enabled;
     VisionSettings.control_enabled := false;
     VisionSettings.camera_index := Some 0%Z;
     VisionSettings.camera_url := None;
     VisionSettings.aruco_dict_name := "DICT_4X4_50";
     VisionSettings.marker_size_m := S754_finite false 5764607523034235 (-57);
     VisionSettings.show_window := true |}.

(** mode swarm, channels 7 8 9, vision enabled. *)
Definition swarm_vision : Settings.t :=
  {| Settings.mode := "swarm"; Settings.dry_run := false;
     Settings.run := run_settings; Settings.radio := radio_table;
     Settings.swarm := {| SwarmSettings.enabled := true;
                          SwarmSettings.channels := Some ["7"; "8"; "9"] |};
     Settings.vision := vision_settings true;
     Settings.features := {| FeatureFlags.waypoints := false |};
     Settings.uri := None |}.

(** mode radio on channel 7, vision disabled. *)
Definition radio_plain : Settings.t :=
  {| Settings.mode := "radio"; Settings.dry_run := false;
     Settings.run := run_settings; Settings.radio := radio_table;
     Settings.swarm := {| SwarmSettings.enabled := false; SwarmSettings.channels := None |};
     Settings.vision := vision_settings false;
     Settings.features := {| FeatureFlags.waypoints := false |};
     Settings.uri := Some "radio://0/7/2M/E7E7E7E707" |}.

(** The same session as a dry run. *)
Definition radio_dry : Settings.t :=
  {| Settings.mode := "radio"; Settings.dry_run := true;
     Settings.run := run_settings; Settings.radio := radio_table;
     Settings.swarm := {| SwarmSettings.enabled := false; SwarmSettings.channels := None |};
     Settings.vision := vision_settings false;
     Settings.features := {| FeatureFlags.waypoints := false |};
     Settings.uri := Some "radio://0/7/2M/E7E7E7E707" |}.

(** Every call returns; the execution unit is alive at teardown. *)
Definition calm : World :=
  {| basicConfig_raises := None; mkdir_raises := None; write_text_raises := None;
     import_raises := λ _, None;
     DroneConnection_raises := None; DroneLogs_raises := None;
     SwarmCommand_raises := None; DetectorRT_raises := None; Thread_raises := None;
     start_raises := None; Command_raises := None; set_detector_raises := None;
     run_raises := None;
     stop_raises := None; is_alive_result := inr true; join_raises := None;
     swarm_close_raises := None; logs_close_raises := None; drone_close_raises := None |}.

Definition RuntimeError (msg : string) : BaseException :=
  {| exc_class := "RuntimeError"; exc_bases := Exception_bases; exc_msg := msg |}.
Definition PermissionError (msg : string) : BaseException :=
  {| exc_class := "PermissionError"; exc_bases := "OSError" :: Exception_bases;
     exc_msg := msg |}.
(** Ctrl-C: not an instance of [Exception]. *)
Definition KeyboardInterrupt : BaseException :=
  {| exc_class := "KeyboardInterrupt"; exc_bases := ["BaseException"; "object"];
     exc_msg := "" |}.

(** The stop signal of the detector raises. *)
Definition stop_fails : TeardownAnswers :=
  {| stop_answer := Some (RuntimeError "camera already released");
     is_alive_answer := inr true; join_answer := None;
     swarm_close_answer := None; logs_close_answer := None;
     drone_close_answer := None |}.

(** Every shutdown operation raises. *)
Definition all_fail : TeardownAnswers :=
  {| stop_answer := Some (RuntimeError "stop");
     is_alive_answer := inl (RuntimeError "is_alive");
     join_answer := Some (RuntimeError "join");
     swarm_close_answer := Some (RuntimeError "swarm");
     logs_close_answer := Some (RuntimeError "logs");
     drone_close_answer := Some (RuntimeError "drone") |}.

(** The logs directory is not writable. *)
Definition snapshot_denied : World :=
  {| basicConfig_raises := None; mkdir_raises := None;
     write_text_raises := Some (PermissionError "[Errno 13] Permission denied");
     import_raises := λ _, None;
     DroneConnection_raises := None; DroneLogs_raises := None;
     SwarmCommand_raises := None; DetectorRT_raises := None; Thread_raises := None;
     start_raises := None; Command_raises := None; set_detector_raises := None;
     run_raises := None;
     stop_raises := None; is_alive_result := inr true; join_raises := None;
     swarm_close_raises := None; logs_close_raises := None; drone_close_raises := None |}.

(** The execution unit is interrupted while it is joined. *)
Definition join_interrupted : TeardownAnswers :=
  {| stop_answer := None; is_alive_answer := inr true;
     join_answer := Some KeyboardInterrupt;
     swarm_close_answer := None; logs_close_answer := None;
     drone_close_answer := None |}.

(** The constructor of the loop controller raises, and then the stop
    signal of the detector. *)
Definition command_and_stop_fail : World :=
  {| basicConfig_raises := None; mkdir_raises := None; write_text_raises := None;
     import_raises := λ _, None;
     DroneConnection_raises := None; DroneLogs_raises := None;
     SwarmCommand_raises := None; DetectorRT_raises := None; Thread_raises := None;
     start_raises := None;
     Command_raises := Some (RuntimeError "no display");
     set_detector_raises := None; run_raises := None;
     stop_raises := Some (RuntimeError "camera already released");
     is_alive_result := inr true; join_raises := None;
     swarm_close_raises := None; logs_close_raises := None; drone_close_raises := None |}.

(** The constructor of the detector raises. *)
Definition detector_fails : World :=
  {| basicConfig_raises := None; mkdir_raises := None; write_text_raises := None;
     import_raises := λ _, None;
     DroneConnection_raises := None; DroneLogs_raises := None;
     SwarmCommand_raises := None;
     DetectorRT_raises := Some (RuntimeError "no camera");
     Thread_raises := None;
     start_raises := None; Command_raises := None; set_detector_raises := None;
     run_raises := None;
     stop_raises := None; is_alive_result := inr true; join_raises := None;
     swarm_close_raises := None; logs_close_raises := None; drone_close_raises := None |}.

(** A serialization of objects that can be read back: the object as a
    tree, the tree as a number, the number as its binary digits. *)
Definition leaf : Type := bool + Z + string.
Definition leafB (b : bool) : gen_tree leaf := GenLeaf (inl (inl b)).
Definition leafZ (i : Z) : gen_tree leaf := GenLeaf (inl (inr i)).
Definition leafS (s : string) : gen_tree leaf := GenLeaf (inr s).

Definition float_tree (f : spec_float) : gen_tree leaf :=
  match f with
  | S754_zero b => GenNode 0 [leafB b]
  | S754_infinity b => GenNode 1 [leafB b]
  | S754_nan => GenNode 2 []
  | S754_finite b m e => GenNode 3 [leafB b; leafZ (Z.pos m); leafZ e]
  end.

Definition tree_float (t : gen_tree leaf) : option spec_float :=
  match t with
  | GenNode 0 [GenLeaf (inl (inl b))] => Some (S754_zero b)
  | GenNode 1 [GenLeaf (inl (inl b))] => Some (S754_infinity b)
  | GenNode 2 [] => Some S754_nan
  | GenNode 3 [GenLeaf (inl (inl b)); GenLeaf (inl (inr (Z.pos m))); GenLeaf (inl (inr e))] =>
      Some (S754_finite b m e)
  | _ => None
  end.

Fixpoint to_tree (v : pyval) : gen_tree leaf :=
  match v with
  | PNone => GenNode 0 []
  | PBool b => GenNode 1 [leafB b]
  | PInt i => GenNode 2 [leafZ i]
  | PFloat f => GenNode 3 [float_tree f]
  | PStr s => GenNode 4 [leafS s]
  | PPath p => GenNode 5 (leafS (anchor p) :: map leafS (parts p))
  | PList l => GenNode 6 (map to_tree l)
  | PTuple l => GenNode 7 (map to_tree l)
  | PDict items => GenNode 8 (map (λ kv, GenNode 0 [leafS kv.1; to_tree kv.2]) items)
  | PData cls fields =>
      GenNode 9 (leafS cls :: map (λ kv, GenNode 0 [leafS kv.1; to_tree kv.2]) fields)
  end.

Definition tree_str (t : gen_tree leaf) : option string :=
  match t with GenLeaf (inr s) => Some s | _ => None end.

Fixpoint of_tree (t : gen_tree leaf) : option pyval :=
  let many := fix many (ts : list (gen_tree leaf)) : option (list pyval) :=
    match ts with
    | [] => Some []
    | t :: ts' =>
        match of_tree t, many ts' with
        | Some x, Some xs => Some (x :: xs)
        | _, _ => None
        end
    end in
  let items := fix items (ts : list (gen_tree leaf)) : option (list (string * pyval)) :=
    match ts with
    | [] => Some []
    | GenNode 0 [GenLeaf (inr k); t] :: ts' =>
        match of_tree t, items ts' with
        | Some x, Some xs => Some ((k, x) :: xs)
        | _, _ => None
        end
    | _ => None
    end in
  match t with
  | GenNode 0 [] => Some PNone
  | GenNode 1 [GenLeaf (inl (inl b))] => Some (PBool b)
  | GenNode 2 [GenLeaf (inl (inr i))] => Some (PInt i)
  | GenNode 3 [f] => PFloat <$> tree_float f
  | GenNode 4 [GenLeaf (inr s)] => Some (PStr s)
  | GenNode 5 (GenLeaf (inr a) :: ps) =>
      (λ ps, PPath {| anchor := a; parts := ps |}) <$> mapM tree_str ps
  | GenNode 6 ts => PList <$> many ts
  | GenNode 7 ts => PTuple <$> many ts
  | GenNode 8 ts => PDict <$> items ts
  | GenNode 9 (GenLeaf (inr cls) :: ts) => PData cls <$> items ts
  | _ => None
  end.

Fixpoint digits (p : positive) : string :=
  match p with
  | xH => EmptyString
  | xO q => String "0" (digits q)
  | xI q => String "1" (digits q)
  end.

Fixpoint of_digits (text : string) : option positive :=
  match text with
  | EmptyString => Some xH
  | String c r =>
      match of_digits r with
      | Some q => if Ascii.eqb c "0" then Some (xO q)
                  else if Ascii.eqb c "1" then Some (xI q) else None
      | None => None
      end
  end.

Definition dumps (v : pyval) : string := digits (encode (to_tree v)).
Definition loads (text : string) : option pyval :=
  p ← of_digits text; t ← decode p; of_tree t.

End sample.

(** ** [main] of [src/cli/main.py] *)

Module entry.

Section main.

Variable argparse : list string -> Z + Namespace.t.
Variable getenv : string -> option string.
Variable _project_root : Path.
Variable int_of_str : string -> option Z.
Variable float_of_str : string -> option spec_float.
Variable json_dumps : pyval -> string.

(** [main(argv)]: the calls made, and the status returned or what leaves
    [main].  The import of [core.runner] is answered by the world like the
    other imports. *)
Definition main (w : runner.World) (argv : list string)
  : list runner.Event * (Abort + Z) :=
  match cli.parse_args argparse argv with
  | inl a => ([], inl a)
  | inr args =>
      match config.load_settings_from_env getenv _project_root int_of_str float_of_str
              (CliArgs.mode args) (CliArgs.dry_run args)
              (CliArgs.channel args) (CliArgs.channels args)
              (CliArgs.vision args) (CliArgs.control args) (CliArgs.waypoints args)
              (CliArgs.log_level args) with
      | inl e => ([], inl (Raised e))
      | inr settings =>
          match runner.import_raises w "core.runner" with
          | Some e => ([runner.import_from "core.runner" "run"], inl (Raised e))
          | None =>
              let '(tr, r) := runner.run json_dumps w settings in
              (runner.import_from "core.runner" "run" :: tr,
               match r with
               | inl e => inl (Raised e)
               | inr status => inr status
               end)
          end
      end
  end.

End main.

End entry.

(** ** More vocabulary: what a trace shows *)

Module observe.

Import runner lifecycle.

(** The line that opens the teardown. *)
Definition teardown_banner : Event := log_info "Shutting down subsystems...".

Definition is_teardown_banner (ev : Event) : bool :=
  match ev with
  | log_info msg => String.eqb msg "Shutting down subsystems..."
  | _ => false
  end.

Definition is_log_exception (ev : Event) : bool :=
  match ev with log_exception _ _ => true | _ => false end.

(** The calls that touch the swarm controller. *)
Definition swarm_call (ev : Event) : bool :=
  match ev with
  | SwarmCommand_init _ | SwarmCommand_close _ => true
  | import_from m _ => String.eqb m "swarm.swarm_command"
  | _ => false
  end.

(** The calls that touch the detector or its execution unit. *)
Definition vision_call (ev : Event) : bool :=
  match ev with
  | DetectorRT_init _ | Thread_init _ | Thread_start _ | Command_set_detector _ _ _
  | DetectorRT_stop _ | Thread_is_alive _ | Thread_join _ _ => true
  | import_from m _ => String.eqb m "vision.vision" || String.eqb m "threading"
  | _ => false
  end.

(** The exception that ends the block of a close, if any. *)
Definition close_failure {A : Type} (handle : option A)
    (raises : option BaseException) : option BaseException :=
  match handle with
  | Some _ => raises
  | None => None
  end.

(** The line that a guarded block logs when it fails: its message with
    the exception that ended its body. *)
Definition block_log (msg : string) (failure : option BaseException) : list Event :=
  match failure with
  | Some e => [log_exception msg e]
  | None => []
  end.

(** How a guarded block ends: it completes, also when its body raised an
    instance of [Exception]; anything else passes. *)
Definition guarded (failure : option BaseException) : BaseException + unit :=
  match failure with
  | Some e => if caught e then inr tt else inl e
  | None => inr tt
  end.

(** An event that is not the log of an exception that the handlers do not
    intercept. *)
Definition logs_caught_only (ev : Event) : bool :=
  match ev with
  | log_exception _ e => caught e
  | _ => true
  end.

(** The exception that ends the vision block, if any: that of the stop
    signal, else that of the liveness query, else that of the join. *)
Definition vision_failure (w : World) (f : Locals) : option BaseException :=
  match detector f, stop_raises w with
  | Some _, Some e => Some e
  | _, _ =>
      match detector_thread f with
      | Some _ =>
          match is_alive_result w with
          | inl e => Some e
          | inr true => join_raises w
          | inr false => None
          end
      | None => None
      end
  end.

(** One line per block that fails, in the order of the blocks. *)
Definition teardown_failure_logs (w : World) (f : Locals) : list Event :=
  block_log "Error during vision shutdown." (vision_failure w f)
  ++ block_log "Error during swarm shutdown." (close_failure (swarm f) (swarm_close_raises w))
  ++ block_log "Error during log shutdown."
       (close_failure (drone_logs f) (logs_close_raises w))
  ++ block_log "Error during drone shutdown." (close_failure (drone f) (drone_close_raises w)).

(** The loop was entered and left normally. *)
Definition loop_returns (w : World) (s : Settings.t) : bool :=
  (if has_vision s then returned (set_detector_raises w) else true)
  && returned (run_raises w).

End observe.

(** ** More vocabulary: the command line and the environment *)

Module words.

(** A trailing token occurs among the extras, whatever its case. *)
Definition token (tok : string) (ns : Namespace.t) : bool :=
  bool_decide (tok ∈ lower <$> default [] (Namespace.extras ns)).

(** A feature is asked for by its flag or by one of its tokens. *)
Definition asks_vision (ns : Namespace.t) : bool :=
  default false (Namespace.vision ns) || token "vision" ns.
Definition asks_control (ns : Namespace.t) : bool :=
  default false (Namespace.control ns) || token "control" ns.
Definition asks_waypoints (ns : Namespace.t) : bool :=
  default false (Namespace.waypoints ns) || token "waypoint" ns || token "waypoints" ns.

(** The camera index and the marker size of the environment convert. *)
Definition conversions_succeed (getenv : string -> option string)
    (int_of_str : string -> option Z) (float_of_str : string -> option spec_float) : Prop :=
  (truthy (strip (config.os_getenv getenv "NEST_CAMERA_INDEX" "")) = true →
   is_Some (int_of_str (strip (config.os_getenv getenv "NEST_CAMERA_INDEX" ""))))
  ∧ is_Some (float_of_str (config.os_getenv getenv "NEST_MARKER_SIZE_M" "0.040")).

(** The session has the connection target that its mode needs at load
    time: a channel key for radio, and a resolved URI for udp and radio
    unless it is a dry run. *)
Definition target_resolves (getenv : string -> option string)
    (mode : string) (dry_run : bool) (channel : option string) : Prop :=
  (mode = "radio" → truthy_opt channel = true)
  ∧ (dry_run = false → mode = "udp" ∨ mode = "radio" →
     is_Some (lifecycle.connection_uri getenv mode channel)).

End words.

(** ** More sample sessions *)

Module sample_more.

Import runner lifecycle.

(** An environment for the udp mode. *)
Definition getenv_udp (name : string) : option string :=
  if String.eqb name "CF_URI_UDP" then Some "udp://192.168.43.42" else None.

(** An environment whose camera index is not a number. *)
Definition getenv_bad_camera (name : string) : option string :=
  if String.eqb name "NEST_CAMERA_INDEX" then Some "front" else None.

(** Plain JSON data. *)
Definition plain : pyval :=
  PDict [("channels", PList [PStr "7"; PStr "8"]); ("uri", PNone); ("retries", PInt 3)].

(** The loop raises after every subsystem was built. *)
Definition loop_fails : World :=
  {| basicConfig_raises := None; mkdir_raises := None; write_text_raises := None;
     import_raises := λ _, None;
     DroneConnection_raises := None; DroneLogs_raises := None;
     SwarmCommand_raises := None; DetectorRT_raises := None; Thread_raises := None;
     start_raises := None; Command_raises := None; set_detector_raises := None;
     run_raises := Some (sample.RuntimeError "link lost");
     stop_raises := None; is_alive_result := inr true; join_raises := None;
     swarm_close_raises := None; logs_close_raises := None; drone_close_raises := None |}.

(** The command lines [fly udp --vision --control] and [fly radio 7] as
    argparse reads them. *)
Definition argparse (argv : list string) : Z + Namespace.t :=
  if bool_decide (argv = ["udp"; "--vision"; "--control"])
  then inr (sample.udp_namespace true true [])
  else if bool_decide (argv = ["radio"; "7"])
  then inr {| Namespace.mode := "radio"; Namespace.dry_run := false;
              Namespace.log_level := None;
              Namespace.vision := Some false; Namespace.control := Some false;
              Namespace.waypoints := Some false; Namespace.extras := Some [];
              Namespace.channel := Some "7"; Namespace.channels := None |}
  else inl 2%Z.

End sample_more.

(** * Properties *)

(** ** The command line *)

Section cli_properties.

Variable argparse : list string -> Z + Namespace.t.

(** Filtering the trailing tokens down to the known ones keeps every known
    token. *)
Lemma known_token_kept (tok : string) (extras : list string) :
  tok ∈ cli._EXTRA_TOKENS →
  tok ∈ lower <$> filter (λ e, lower e ∈ cli._EXTRA_TOKENS) extras ↔ tok ∈ lower <$> extras.
Proof.
  intros Hk. rewrite !list_elem_of_fmap. split.
  - intros (e & -> & He). apply list_elem_of_filter in He as [_ He]. eauto.
  - intros (e & -> & He). exists e. split; [done|].
    apply list_elem_of_filter. auto.
Qed.

(** [_parse_extras] raises exactly on [control] without [vision]. *)
Lemma _parse_extras_raises (l : list string) :
  "control" ∈ lower <$> l → "vision" ∉ lower <$> l →
  cli._parse_extras l
  = inl (ValueError "`control` requires `vision` (click-to-go needs vision).").
Proof.
  intros Hc Hv. unfold cli._parse_extras.
  rewrite (bool_decide_eq_true_2 ("control" ∈ _)) by (by apply elem_of_list_to_set).
  rewrite (bool_decide_eq_false_2 ("vision" ∈ _)) by (by rewrite elem_of_list_to_set).
  reflexivity.
Qed.

Lemma _parse_extras_returns (l : list string) (v c w : bool) :
  cli._parse_extras l = inr (v, c, w) →
  v = bool_decide ("vision" ∈ lower <$> l)
  ∧ c = bool_decide ("control" ∈ lower <$> l)
  ∧ (c = true → v = true).
Proof.
  unfold cli._parse_extras.
  rewrite !(bool_decide_ext _ _ (elem_of_list_to_set (C := gset string) _ _)).
  destruct (bool_decide ("control" ∈ _)), (bool_decide ("vision" ∈ _));
    simpl; intros [= <- <- <-]; auto.
Qed.

(** The token booleans that [parse_args] works with. *)
Lemma tokens_spec (extras : list string) :
  let token_extras := filter (λ e, lower e ∈ cli._EXTRA_TOKENS) extras in
  match (match token_extras with
         | [] => inr (false, false, false)
         | _ :: _ => cli._parse_extras token_extras
         end) with
  | inl e =>
      e = ValueError "`control` requires `vision` (click-to-go needs vision)."
      ∧ "control" ∈ lower <$> extras ∧ "vision" ∉ lower <$> extras
  | inr (v, c, w) =>
      v = bool_decide ("vision" ∈ lower <$> extras)
      ∧ c = bool_decide ("control" ∈ lower <$> extras)
      ∧ (c = true → v = true)
  end.
Proof.
  intros token_extras.
  assert (Hv : "vision" ∈ lower <$> token_extras ↔ "vision" ∈ lower <$> extras)
    by (apply known_token_kept; set_solver).
  assert (Hc : "control" ∈ lower <$> token_extras ↔ "control" ∈ lower <$> extras)
    by (apply known_token_kept; set_solver).
  destruct token_extras as [|t ts] eqn:E.
  - assert (Nv : "vision" ∉ lower <$> extras)
      by (rewrite <- Hv; apply not_elem_of_nil).
    assert (Nc : "control" ∉ lower <$> extras)
      by (rewrite <- Hc; apply not_elem_of_nil).
    rewrite !bool_decide_eq_false_2 by done. auto.
  - destruct (cli._parse_extras (t :: ts)) as [e|[[v c] w]] eqn:P.
    + unfold cli._parse_extras in P.
      rewrite !(bool_decide_ext _ _ (elem_of_list_to_set (C := gset string) _ _)) in P.
      destruct (bool_decide ("control" ∈ _)) eqn:Bc, (bool_decide ("vision" ∈ _)) eqn:Bv;
        simpl in P; try discriminate.
      injection P as <-. split; [done|].
      apply bool_decide_eq_true_1 in Bc. apply bool_decide_eq_false_1 in Bv.
      tauto.
    + apply _parse_extras_returns in P as (-> & -> & Himp).
      rewrite (bool_decide_ext _ _ Hv), (bool_decide_ext _ _ Hc) in *. auto.
Qed.

(** C8.  Whenever control is requested (by the flag or by a trailing token)
    and vision is not (neither flag nor token), [parse_args] raises; and a
    [CliArgs] value that [parse_args] returns never has control set without
    vision. *)
Theorem parse_args_control_requires_vision (argv : list string) :
  (∀ ns, argparse argv = inr ns →
     cli.flag Namespace.control ns = true ∨ cli.has_token "control" ns →
     cli.flag Namespace.vision ns = false ∧ ¬ cli.has_token "vision" ns →
     ∃ a, cli.parse_args argparse argv = inl a)
  ∧ (∀ args, cli.parse_args argparse argv = inr args →
       CliArgs.control args = true → CliArgs.vision args = true).
Proof.
  unfold cli.parse_args, cli.flag, cli.has_token.
  destruct (argparse argv) as [status|ns]; [split; [eauto | discriminate]|].
  pose proof (tokens_spec (default [] (Namespace.extras ns))) as T. simpl in T.
  destruct (match filter _ _ with [] => _ | _ => _ end) as [e|[[tv tc] tw]].
  { split; [eauto | discriminate]. }
  destruct T as (-> & -> & Himp). split.
  - intros ns' [= <-] Hc [Hfv Htv]. rewrite Hfv.
    rewrite (bool_decide_eq_false_2 _ Htv). simpl.
    destruct Hc as [->|Hc]; [simpl; eauto|].
    rewrite (bool_decide_eq_true_2 _ Hc), orb_true_r. simpl. eauto.
  - intros args.
    destruct (default false (Namespace.control ns) || _) eqn:C,
             (default false (Namespace.vision ns) || _) eqn:V; simpl;
      try discriminate;
      repeat (case String.eqb; [|]);
      repeat (match goal with |- context [match ?o with Some _ => _ | None => _ end] =>
                destruct o end);
      try discriminate; intros [= <-]; simpl; congruence.
Qed.

(** C10.  The trailing tokens are validated on their own: with a [control]
    token and no [vision] token, [parse_args] raises the [ValueError] of
    [_parse_extras], whatever the option flags are, the [--vision] flag
    included. *)
Theorem parse_args_tokens_validated_alone (argv : list string) (ns : Namespace.t) :
  argparse argv = inr ns →
  cli.has_token "control" ns → ¬ cli.has_token "vision" ns →
  cli.parse_args argparse argv
  = inl (Raised (ValueError "`control` requires `vision` (click-to-go needs vision).")).
Proof.
  unfold cli.parse_args, cli.has_token. intros -> Hc Hv.
  pose proof (tokens_spec (default [] (Namespace.extras ns))) as T. simpl in T.
  destruct (match filter _ _ with [] => _ | _ => _ end) as [e|[[tv tc] tw]].
  - destruct T as (-> & _). reflexivity.
  - destruct T as (-> & -> & Himp).
    rewrite (bool_decide_eq_true_2 _ Hc), (bool_decide_eq_false_2 _ Hv) in Himp.
    discriminate Himp. reflexivity.
Qed.

End cli_properties.

(** ** The snapshot *)

Section snapshot_properties.

Import runner lifecycle.

Lemma comprehension_map {A B : Type} (g : A → B) (l : list A) :
  comprehension l (λ x _, g x) = map g l.
Proof. induction l as [|x l IH]; simpl; [reflexivity|]. by rewrite IH. Qed.

Lemma _safe_asdict_PDict (items : list (string * pyval)) :
  _safe_asdict (PDict items) = PDict (map (λ kv, (kv.1, _safe_asdict kv.2)) items).
Proof. simp _safe_asdict. by rewrite (comprehension_map (λ kv, (kv.1, _safe_asdict kv.2))). Qed.

Lemma _safe_asdict_PList (l : list pyval) :
  _safe_asdict (PList l) = PList (map _safe_asdict l).
Proof. simp _safe_asdict. by rewrite (comprehension_map _safe_asdict). Qed.

Lemma _safe_asdict_PData (cls : string) (fields : list (string * pyval)) :
  _safe_asdict (PData cls fields)
  = PDict (map (λ kv, (kv.1, _safe_asdict (_asdict_inner kv.2))) fields).
Proof.
  simp _safe_asdict.
  rewrite (comprehension_map (λ kv, (kv.1, _safe_asdict kv.2))).
  unfold asdict_items. simpl. by rewrite map_map.
Qed.

Lemma strs_items (g : pyval → pyval) (l : list (string * string)) :
  (∀ s, g (PStr s) = PStr s) →
  map (λ kv, (kv.1, g kv.2)) (map (λ kv : string * string, (kv.1, PStr kv.2)) l)
  = map (λ kv, (kv.1, PStr kv.2)) l.
Proof.
  intros Hg. rewrite map_map. apply map_ext. intros [k v]. simpl. by rewrite Hg.
Qed.

Lemma strs_list (g : pyval → pyval) (l : list string) :
  (∀ s, g (PStr s) = PStr s) → map g (map PStr l) = map PStr l.
Proof. intros Hg. rewrite map_map. by apply map_ext. Qed.

Lemma _safe_asdict_PStr (s : string) : _safe_asdict (PStr s) = PStr s.
Proof. by simp _safe_asdict. Qed.

Lemma _safe_asdict_str_dict (table : list (string * string)) :
  _safe_asdict (PDict (map (λ kv, (kv.1, PStr kv.2)) table))
  = PDict (map (λ kv, (kv.1, PStr kv.2)) table).
Proof.
  rewrite _safe_asdict_PDict. f_equal. apply strs_items, _safe_asdict_PStr.
Qed.

Lemma _safe_asdict_str_list (l : list string) :
  _safe_asdict (PList (map PStr l)) = PList (map PStr l).
Proof.
  rewrite _safe_asdict_PList. f_equal. apply strs_list, _safe_asdict_PStr.
Qed.

(** What [_safe_asdict] makes of a settings value: the dataclasses become
    dicts, the paths become text, every field is kept. *)
Lemma _safe_asdict_of_Settings (s : Settings.t) :
  _safe_asdict (of_Settings s) = snapshot_tree s.
Proof.
  destruct s as [mode dry [root logs data cache lvl] [table] [sw chs]
                   [en ctl idx url dict size win] [wp] uri].
  unfold of_Settings, snapshot_tree. rewrite _safe_asdict_PData.
  cbn [map fst snd of_RunSettings of_RadioSettings of_SwarmSettings
         of_VisionSettings of_FeatureFlags _asdict_inner
         Settings.mode Settings.dry_run Settings.run Settings.radio Settings.swarm
         Settings.vision Settings.features Settings.uri].
  rewrite (strs_items _asdict_inner) by done.
  rewrite !_safe_asdict_PDict.
  cbn [map fst snd]. rewrite _safe_asdict_str_dict.
  destruct chs as [chs|], idx, url, uri; simpl;
    try rewrite (strs_list _asdict_inner) by done;
    rewrite ?_safe_asdict_str_list;
    simp _safe_asdict; reflexivity.
Qed.

Lemma snapshot_tree_json (s : Settings.t) :
  json_serializable (snapshot_tree s) = true ∧ json_value (snapshot_tree s) = true.
Proof.
  destruct s as [mode dry [root logs data cache lvl] [table] [sw chs]
                   [en ctl idx url dict size win] [wp] uri].
  assert (T1 : forallb (λ kv : string * pyval, json_serializable kv.2)
                 (map (λ kv : string * string, (kv.1, PStr kv.2)) table) = true)
    by (induction table; simpl; auto).
  assert (T2 : forallb (λ kv : string * pyval, json_value kv.2)
                 (map (λ kv : string * string, (kv.1, PStr kv.2)) table) = true)
    by (induction table; simpl; auto).
  assert (L1 : ∀ l : list string, forallb json_serializable (map PStr l) = true)
    by (induction l; simpl; auto).
  assert (L2 : ∀ l : list string, forallb json_value (map PStr l) = true)
    by (induction l; simpl; auto).
  unfold snapshot_tree; simpl. rewrite T1, T2.
  destruct chs, idx, url, uri; simpl; rewrite ?L1, ?L2; auto.
Qed.

End snapshot_properties.

(** ** The lifecycle *)

Section lifecycle_properties.

Import runner lifecycle observe.

Variable json_dumps : pyval → string.

Ltac run_cbv :=
  cbv [init_and_loop vision_shutdown swarm_shutdown log_shutdown drone_shutdown
       import call emit raise assign get_locals mbind mret M_bind M_ret
       try_except try_finally app no_handles
       drone drone_logs swarm detector detector_thread
       import_raises DroneConnection_raises DroneLogs_raises SwarmCommand_raises
       DetectorRT_raises Thread_raises start_raises Command_raises set_detector_raises
       run_raises basicConfig_raises mkdir_raises write_text_raises
       stop_raises is_alive_result join_raises swarm_close_raises logs_close_raises
       drone_close_raises].

Ltac next_case :=
  match goal with
  | |- context [match ?o with Some _ => _ | None => _ end] => destruct o
  | |- context [match ?o with inl _ => _ | inr _ => _ end] => destruct o as [?|[]]
  end.

(** One case of a guarded block: a handle, an answer, or the class of what
    was raised. *)
Ltac block_case :=
  match goal with
  | |- context [match ?o with Some _ => _ | None => _ end] => is_var o; destruct o
  | |- context [match ?o with inl _ => _ | inr _ => _ end] =>
      is_var o; destruct o as [?|[]]
  | |- context [isinstance ?e "Exception"] =>
      is_var e; destruct (isinstance e "Exception") eqn:?
  end.

Ltac block_facts :=
  eexists; repeat split; try reflexivity; intros; try discriminate;
  cbv [forallb logs_caught_only caught];
  repeat match goal with H : isinstance _ _ = _ |- _ => rewrite H end;
  reflexivity.

(** *** How a guarded block ends *)

Lemma guarded_inl (o : option BaseException) (e : BaseException) :
  guarded o = inl e → o = Some e ∧ caught e = false.
Proof.
  destruct o as [e'|]; simpl; [|discriminate].
  destruct (caught e') eqn:E; [discriminate|]. by intros [= <-].
Qed.

Lemma guarded_ordinary (o : option BaseException) :
  guarded o = inr tt ↔ ordinary o = true.
Proof.
  destruct o as [e|]; simpl; [|done]. destruct (caught e); split; done.
Qed.

Lemma vision_failure_ordinary (w : World) (f : Locals) :
  teardown_ordinary w = true → ordinary (vision_failure w f) = true.
Proof.
  unfold teardown_ordinary, answers_ordinary, vision_failure. simpl.
  destruct (stop_raises w) as [e1|], (is_alive_result w) as [e2|[]],
    (join_raises w) as [e3|], (detector f), (detector_thread f); simpl;
    rewrite ?andb_true_r, ?andb_false_r;
    repeat (destruct (caught _); simpl); try done.
Qed.

Lemma close_failure_ordinary {A : Type} (h : option A) (o : option BaseException) :
  ordinary o = true → ordinary (close_failure h o) = true.
Proof. by destruct h. Qed.

Lemma teardown_ordinary_inv (w : World) :
  teardown_ordinary w = true →
  ordinary (swarm_close_raises w) = true ∧ ordinary (logs_close_raises w) = true
  ∧ ordinary (drone_close_raises w) = true.
Proof.
  unfold teardown_ordinary, answers_ordinary. simpl.
  intros H. repeat (apply andb_prop in H as [H ?]). auto.
Qed.

(** *** The four blocks of the teardown *)

Lemma vision_block (w : World) (f : Locals) :
  ∃ tr, vision_shutdown w f = (f, tr, guarded (vision_failure w f))
        ∧ List.filter shutdown_call tr
          = (present DetectorRT_stop (detector f) ++ joins w f)%list
        ∧ List.filter init_call tr = []
        ∧ List.filter is_teardown_banner tr = []
        ∧ List.filter swarm_call tr = []
        ∧ (detector f = None → detector_thread f = None → List.filter vision_call tr = [])
        ∧ List.filter is_log_exception tr
          = match guarded (vision_failure w f) with
            | inr _ => block_log "Error during vision shutdown." (vision_failure w f)
            | inl _ => []
            end
        ∧ forallb logs_caught_only tr = true.
Proof.
  destruct w, f as [d l s det th].
  unfold joins, present, vision_failure, guarded, block_log, caught. run_cbv.
  repeat block_case; block_facts.
Qed.

Lemma swarm_block (w : World) (f : Locals) :
  ∃ tr, swarm_shutdown w f
        = (f, tr, guarded (close_failure (swarm f) (swarm_close_raises w)))
        ∧ List.filter shutdown_call tr = present SwarmCommand_close (swarm f)
        ∧ List.filter init_call tr = []
        ∧ List.filter is_teardown_banner tr = []
        ∧ (swarm f = None → List.filter swarm_call tr = [])
        ∧ List.filter vision_call tr = []
        ∧ List.filter is_log_exception tr
          = match guarded (close_failure (swarm f) (swarm_close_raises w)) with
            | inr _ => block_log "Error during swarm shutdown."
                         (close_failure (swarm f) (swarm_close_raises w))
            | inl _ => []
            end
        ∧ forallb logs_caught_only tr = true.
Proof.
  destruct w, f as [d l s det th].
  unfold present, close_failure, guarded, block_log, caught. run_cbv.
  repeat block_case; block_facts.
Qed.

Lemma log_block (w : World) (f : Locals) :
  ∃ tr, log_shutdown w f
        = (f, tr, guarded (close_failure (drone_logs f) (logs_close_raises w)))
        ∧ List.filter shutdown_call tr = present DroneLogs_close (drone_logs f)
        ∧ List.filter init_call tr = []
        ∧ List.filter is_teardown_banner tr = []
        ∧ List.filter swarm_call tr = []
        ∧ List.filter vision_call tr = []
        ∧ List.filter is_log_exception tr
          = match guarded (close_failure (drone_logs f) (logs_close_raises w)) with
            | inr _ => block_log "Error during log shutdown."
                         (close_failure (drone_logs f) (logs_close_raises w))
            | inl _ => []
            end
        ∧ forallb logs_caught_only tr = true.
Proof.
  destruct w, f as [d l s det th].
  unfold present, close_failure, guarded, block_log, caught. run_cbv.
  repeat block_case; block_facts.
Qed.

Lemma drone_block (w : World) (f : Locals) :
  ∃ tr, drone_shutdown w f
        = (f, tr, guarded (close_failure (drone f) (drone_close_raises w)))
        ∧ List.filter shutdown_call tr = present DroneConnection_close (drone f)
        ∧ List.filter init_call tr = []
        ∧ List.filter is_teardown_banner tr = []
        ∧ List.filter swarm_call tr = []
        ∧ List.filter vision_call tr = []
        ∧ List.filter is_log_exception tr
          = match guarded (close_failure (drone f) (drone_close_raises w)) with
            | inr _ => block_log "Error during drone shutdown."
                         (close_failure (drone f) (drone_close_raises w))
            | inl _ => []
            end
        ∧ forallb logs_caught_only tr = true.
Proof.
  destruct w, f as [d l s det th].
  unfold present, close_failure, guarded, block_log, caught. run_cbv.
  repeat block_case; block_facts.
Qed.

(** The teardown: the banner, then the four blocks one after the other,
    until one of them lets an exception pass.  It leaves the handle variables
    alone; what it raises is not an instance of [Exception]; it returns when
    the shutdown operations raise instances of [Exception] only, and then
    all of its steps were made. *)
Lemma teardown_shape (w : World) (f : Locals) :
  ∃ rest r, teardown w f = (f, teardown_banner :: rest, r)
    ∧ List.filter shutdown_call rest `prefix_of` shutdown_sequence w f
    ∧ List.filter is_log_exception rest `prefix_of` teardown_failure_logs w f
    ∧ (r = inr tt →
       List.filter shutdown_call rest = shutdown_sequence w f
       ∧ List.filter is_log_exception rest = teardown_failure_logs w f)
    ∧ (∀ e, r = inl e → caught e = false)
    ∧ (teardown_ordinary w = true → r = inr tt)
    ∧ List.filter init_call rest = []
    ∧ List.filter is_teardown_banner rest = []
    ∧ (swarm f = None → List.filter swarm_call rest = [])
    ∧ (detector f = None → detector_thread f = None → List.filter vision_call rest = [])
    ∧ forallb logs_caught_only rest = true.
Proof.
  destruct (vision_block w f) as (tr1 & E1 & S1 & I1 & B1 & W1 & V1 & L1 & C1).
  destruct (swarm_block w f) as (tr2 & E2 & S2 & I2 & B2 & W2 & V2 & L2 & C2).
  destruct (log_block w f) as (tr3 & E3 & S3 & I3 & B3 & W3 & V3 & L3 & C3).
  destruct (drone_block w f) as (tr4 & E4 & S4 & I4 & B4 & W4 & V4 & L4 & C4).
  pose proof (vision_failure_ordinary w f) as O1.
  pose proof (teardown_ordinary_inv w) as O.
  unfold teardown, teardown_banner, shutdown_sequence, teardown_failure_logs.
  cbv [mbind M_bind emit]. rewrite E1.
  destruct (guarded (vision_failure w f)) as [e1|[]] eqn:G1.
  { exists tr1, (inl e1). rewrite S1, L1. split; [reflexivity|].
    split; [rewrite app_assoc; apply prefix_app_r; reflexivity|].
    split; [apply prefix_nil|]. split; [discriminate|].
    split; [intros e [= <-]; by apply guarded_inl in G1 as [_ ?]|].
    split; [intros H; apply O1, guarded_ordinary in H; congruence|].
    repeat split; auto. }
  rewrite E2.
  destruct (guarded (close_failure (swarm f) (swarm_close_raises w)))
    as [e2|[]] eqn:G2.
  { exists (tr1 ++ tr2)%list, (inl e2). rewrite !List.filter_app, S1, S2, L1, L2.
    split; [reflexivity|].
    split; [rewrite <- !app_assoc; do 2 apply prefix_app; apply prefix_app_r; reflexivity|].
    split; [rewrite app_nil_r; apply prefix_app_r; reflexivity|].
    split; [discriminate|].
    split; [intros e [= <-]; by apply guarded_inl in G2 as [_ ?]|].
    split. { intros H. destruct (O H) as (H2 & _).
             apply (close_failure_ordinary (swarm f)), guarded_ordinary in H2.
             congruence. }
    rewrite I1, I2, B1, B2, W1, V2, forallb_app, C1, C2.
    repeat split; auto; intros; rewrite ?W2, ?V1 by assumption; done. }
  rewrite E3.
  destruct (guarded (close_failure (drone_logs f) (logs_close_raises w)))
    as [e3|[]] eqn:G3.
  { exists (tr1 ++ tr2 ++ tr3)%list, (inl e3).
    rewrite !List.filter_app, S1, S2, S3, L1, L2, L3.
    split; [reflexivity|].
    split; [rewrite <- !app_assoc; do 3 apply prefix_app; apply prefix_app_r; reflexivity|].
    split; [rewrite app_nil_r; apply prefix_app, prefix_app_r; reflexivity|].
    split; [discriminate|].
    split; [intros e [= <-]; by apply guarded_inl in G3 as [_ ?]|].
    split. { intros H. destruct (O H) as (_ & H3 & _).
             apply (close_failure_ordinary (drone_logs f)), guarded_ordinary in H3.
             congruence. }
    rewrite I1, I2, I3, B1, B2, B3, W1, W3, V2, V3, !forallb_app, C1, C2, C3.
    repeat split; auto; intros; rewrite ?W2, ?V1 by assumption; done. }
  rewrite E4.
  exists (tr1 ++ tr2 ++ tr3 ++ tr4)%list,
    (guarded (close_failure (drone f) (drone_close_raises w))).
  rewrite !List.filter_app, S1, S2, S3, S4, L1, L2, L3, L4.
  split; [reflexivity|].
  split; [by rewrite <- !app_assoc|].
  split. { do 3 apply prefix_app.
           destruct (guarded (close_failure (drone f) (drone_close_raises w)));
             [apply prefix_nil|reflexivity]. }
  split. { intros ->. by rewrite <- !app_assoc. }
  split; [intros e G4; by apply guarded_inl in G4 as [_ ?]|].
  split. { intros H. destruct (O H) as (_ & _ & H4).
           by apply (close_failure_ordinary (drone f)), guarded_ordinary in H4. }
  rewrite I1, I2, I3, I4, B1, B2, B3, B4, W1, W3, W4, V2, V3, V4,
    !forallb_app, C1, C2, C3, C4.
  repeat split; auto; intros; rewrite ?W2, ?V1 by assumption; done.
Qed.

(** *** Initialization and the loop *)

Lemma init_facts (w : World) (s : Settings.t) :
  ∀ f1 tr1 r1, init_and_loop w s no_handles = (f1, tr1, r1) →
  (if init_returns w s then r1 = inr 0%Z else ∃ e, r1 = inl e)
  ∧ List.filter init_call tr1 `prefix_of` init_order s
  ∧ (init_returns w s = true → List.filter init_call tr1 = init_order s)
  ∧ List.filter close_call tr1 = []
  ∧ List.filter join_call tr1 = []
  ∧ List.filter subsystem_call tr1 ≠ [].
Proof.
  intros f1 tr1 r1.
  unfold init_order, init_returns, the_command, is_swarm, has_vision.
  destruct w as [bc mk wt imp c_dc c_dl c_sc c_det c_th c_start c_cmd c_set c_run
                   t1 t2 t3 t4 t5 t6].
  run_cbv.
  destruct (String.eqb (Settings.mode s) "swarm") eqn:Esw;
  destruct (VisionSettings.enabled (Settings.vision s)) eqn:Evis.
  all: repeat next_case.
  all: intros [= <- <- <-].
  all: split; [simpl; eauto|]; split; [eexists; reflexivity|].
  all: split; [|repeat split; done].
  all: try discriminate.
  all: reflexivity.
Qed.

(** What the initialization or the loop raises was raised by one of
    their calls. *)
Lemma init_raises_ordinary (w : World) (s : Settings.t) :
  ∀ f1 tr1 e, init_and_loop w s no_handles = (f1, tr1, inl e) →
  init_ordinary w = true → caught e = true.
Proof.
  intros f1 tr1 e.
  destruct w as [bc mk wt imp c_dc c_dl c_sc c_det c_th c_start c_cmd c_set c_run
                   t1 t2 t3 t4 t5 t6].
  run_cbv.
  destruct (String.eqb (Settings.mode s) "swarm") eqn:Esw;
  destruct (VisionSettings.enabled (Settings.vision s)) eqn:Evis.
  all: repeat match goal with
       | |- context [match ?o with Some _ => _ | None => _ end] =>
           first [is_var o; destruct o | destruct o eqn:?]
       end.
  all: intros E H; try discriminate E; injection E as <- <- <-.
  all: cbv [init_ordinary forallb imported_modules
            import_raises DroneConnection_raises DroneLogs_raises SwarmCommand_raises
            DetectorRT_raises Thread_raises start_raises Command_raises
            set_detector_raises run_raises] in H.
  all: repeat match goal with
       | Ei : ?g _ = _ |- _ => is_var g; rewrite Ei in H; clear Ei
       end.
  all: repeat match goal with
       | H' : (_ && _) = true |- _ => apply andb_prop in H' as [? ?]
       end.
  all: cbv [ordinary] in *; assumption.
Qed.

Lemma init_fails_at (w : World) (s : Settings.t) (k : InitStep) (e : BaseException) :
  reaches w s k = true → constructor_raises w k = Some e →
  ∃ tr1, init_and_loop w s no_handles = (built_before s k, tr1, inl e).
Proof.
  unfold reaches, constructor_raises, built_before, snapshot_written, is_swarm, has_vision,
    the_thread, the_detector.
  destruct w as [bc mk wt imp c_dc c_dl c_sc c_det c_th c_start c_cmd c_set c_run
                   t1 t2 t3 t4 t5 t6].
  run_cbv.
  destruct (String.eqb (Settings.mode s) "swarm") eqn:Esw;
  destruct (VisionSettings.enabled (Settings.vision s)) eqn:Evis.
  all: destruct k.
  all: repeat next_case.
  all: simpl; rewrite ?andb_false_r; try discriminate.
  all: intros _ [= ->]; eexists; reflexivity.
Qed.

(** *** The shape of a run *)

Lemma run_unfold (w : World) (s : Settings.t) :
  run json_dumps w s =
  match basicConfig_raises w with
  | Some e => (take 1 (opening json_dumps s), inl e)
  | None =>
  match mkdir_raises w with
  | Some e => (take 2 (opening json_dumps s), inl e)
  | None =>
  match write_text_raises w with
  | Some e => (opening json_dumps s, inl e)
  | None =>
      if Settings.dry_run s
      then ((opening json_dumps s
              ++ [log_info "Dry-run enabled: skipping hardware + vision initialization."])%list,
            inr 0%Z)
      else
        let '(f1, tr1, r1) := init_and_loop w s no_handles in
        let '(_, tr2, r2) := teardown w f1 in
        ((opening json_dumps s ++ (tr1 ++ (handled r1).1) ++ tr2)%list,
         after_teardown r2 (handled r1).2)
  end end end.
Proof.
  unfold run, run_body, _setup_logging, _write_settings_snapshot, opening.
  rewrite _safe_asdict_of_Settings, (proj1 (snapshot_tree_json s)).
  cbv [call emit raise mbind mret M_bind M_ret try_except try_finally].
  destruct (basicConfig_raises w), (mkdir_raises w), (write_text_raises w);
    try reflexivity.
  destruct (Settings.dry_run s); [reflexivity|].
  destruct (init_and_loop w s no_handles) as [[f1 tr1] r1].
  unfold handled, caught.
  destruct r1 as [e|x]; [destruct (isinstance e "Exception")|];
    cbv beta iota zeta;
    destruct (teardown w f1) as [[f2 tr2] r2];
    destruct r2; simpl; rewrite ?app_nil_r; reflexivity.
Qed.

End lifecycle_properties.

(** *** The theorems of the lifecycle *)

Section lifecycle_theorems.

Import runner lifecycle observe.

Variable json_dumps : pyval → string.

Lemma reaches_snapshot_written (w : World) (s : Settings.t) (k : InitStep) :
  reaches w s k = true → snapshot_written w = true.
Proof.
  unfold reaches. destruct (snapshot_written w); [done|].
  destruct k; simpl; discriminate.
Qed.

Lemma snapshot_written_inv (w : World) :
  snapshot_written w = true →
  basicConfig_raises w = None ∧ mkdir_raises w = None ∧ write_text_raises w = None.
Proof.
  unfold snapshot_written.
  destruct (basicConfig_raises w), (mkdir_raises w), (write_text_raises w);
    simpl; try discriminate; auto.
Qed.

Lemma opening_quiet (s : Settings.t) (n : nat) :
  List.filter subsystem_call (take n (opening json_dumps s)) = []
  ∧ List.filter init_call (take n (opening json_dumps s)) = []
  ∧ List.filter close_call (take n (opening json_dumps s)) = []
  ∧ List.filter join_call (take n (opening json_dumps s)) = [].
Proof. destruct n as [|[|[|[|n]]]]; repeat split; reflexivity. Qed.

Lemma opening_silent (s : Settings.t) (n : nat) :
  List.filter is_teardown_banner (take n (opening json_dumps s)) = []
  ∧ List.filter swarm_call (take n (opening json_dumps s)) = []
  ∧ List.filter vision_call (take n (opening json_dumps s)) = []
  ∧ List.filter shutdown_call (take n (opening json_dumps s)) = [].
Proof. destruct n as [|[|[|[|n]]]]; repeat split; reflexivity. Qed.

(** A live run, once the snapshot is written: the opening, the
    initialization and the loop, the handler, the teardown. *)
Lemma run_live (w : World) (s : Settings.t) :
  snapshot_written w = true → Settings.dry_run s = false →
  ∃ f1 tr1 r1 rest r2,
    init_and_loop w s no_handles = (f1, tr1, r1)
    ∧ teardown w f1 = (f1, teardown_banner :: rest, r2)
    ∧ run json_dumps w s
      = ((opening json_dumps s ++ (tr1 ++ (handled r1).1) ++ teardown_banner :: rest)%list,
         after_teardown r2 (handled r1).2).
Proof.
  intros (Hb & Hm & Hw)%snapshot_written_inv Hdry.
  rewrite run_unfold, Hb, Hm, Hw, Hdry.
  destruct (init_and_loop w s no_handles) as [[f1 tr1] r1].
  destruct (teardown_shape w f1) as (rest & r2 & E & _).
  exists f1, tr1, r1, rest, r2. by rewrite E.
Qed.

Lemma handled_quiet (r1 : BaseException + Z) :
  List.filter init_call (handled r1).1 = []
  ∧ List.filter is_teardown_banner (handled r1).1 = []
  ∧ List.filter swarm_call (handled r1).1 = []
  ∧ List.filter vision_call (handled r1).1 = []
  ∧ List.filter shutdown_call (handled r1).1 = [].
Proof.
  unfold handled. destruct r1 as [e|x]; [destruct (caught e)|];
    repeat split; reflexivity.
Qed.

Lemma filter_shutdown_nil (l : list Event) :
  List.filter close_call l = [] → List.filter join_call l = [] →
  List.filter shutdown_call l = [].
Proof.
  unfold shutdown_call. induction l as [|ev l IH]; simpl; [done|].
  destruct (close_call ev); [done|]. destruct (join_call ev); [done|]. auto.
Qed.

(** The shutdown calls of a live run are those of its teardown. *)
Lemma run_shutdown_calls (w : World) (s : Settings.t) f1 tr1 r1 rest :
  init_and_loop w s no_handles = (f1, tr1, r1) →
  List.filter shutdown_call
    (opening json_dumps s ++ (tr1 ++ (handled r1).1) ++ teardown_banner :: rest)
  = List.filter shutdown_call rest.
Proof.
  intros Ei.
  destruct (init_facts w s _ _ _ Ei) as (_ & _ & _ & C1 & J1 & _).
  destruct (opening_silent s 3) as (_ & _ & _ & S0).
  change (take 3 (opening json_dumps s)) with (opening json_dumps s) in S0.
  destruct (handled_quiet r1) as (_ & _ & _ & _ & Sh).
  by rewrite !List.filter_app, S0, (filter_shutdown_nil _ C1 J1), Sh.
Qed.

(** C1, as amended.  The teardown consists of four guarded blocks whose
    handlers intercept the instances of [Exception].  When the shutdown
    operations raise nothing else, the teardown returns, and the stop signal
    and the three closes are made for exactly the handles that are present,
    in the fixed order; the join of the execution unit, which shares its
    block with the stop signal and comes right after it, is made when the
    unit is present and alive and the stop signal (if there is a detector)
    returned.  In any case the steps made are an initial segment of these,
    and what the teardown raises is not an instance of [Exception]. *)
Theorem teardown_blocks_independent (w : World) (f : Locals) :
  ∃ tr r, teardown w f = (f, tr, r)
    ∧ List.filter shutdown_call tr `prefix_of` shutdown_sequence w f
    ∧ (teardown_ordinary w = true →
       r = inr tt ∧ List.filter shutdown_call tr = shutdown_sequence w f)
    ∧ (∀ e, r = inl e → caught e = false).
Proof.
  destruct (teardown_shape w f) as (rest & r & E & P & _ & Q & R & O & _).
  exists (teardown_banner :: rest), r. split; [exact E|].
  split; [exact P|]. split; [|exact R].
  intros H. specialize (O H). split; [exact O|]. by destruct (Q O).
Qed.

(** C2, as amended.  Once logging is set up and the snapshot is written, no
    instance of [Exception] leaves [run]; and when the calls raise nothing
    else, [run] returns: 0 for a dry run and when every call of the
    initialization and of the loop returns, 1 otherwise, and in that case
    the exception is logged by the handler of [run]. *)
Theorem run_returns_after_snapshot (w : World) (s : Settings.t) :
  snapshot_written w = true →
  (∀ e, (run json_dumps w s).2 = inl e → caught e = false)
  ∧ (init_ordinary w = true → teardown_ordinary w = true →
     (run json_dumps w s).2
     = inr (if Settings.dry_run s || init_returns w s then 0 else 1)%Z
     ∧ (Settings.dry_run s = false → init_returns w s = false →
        ∃ e, In (log_exception ("Fatal error in runner: " +:+ exc_msg e) e)
               (run json_dumps w s).1)).
Proof.
  intros Hs. destruct (Settings.dry_run s) eqn:Hdry.
  - apply snapshot_written_inv in Hs as (Hb & Hm & Hw).
    rewrite run_unfold, Hb, Hm, Hw, Hdry. split; [discriminate|].
    intros _ _. split; [done|discriminate].
  - destruct (run_live w s Hs Hdry) as (f1 & tr1 & r1 & rest & r2 & Ei & Et & ->).
    destruct (teardown_shape w f1) as (rest' & r2' & Et' & _ & _ & _ & R & O & _).
    rewrite Et in Et'. injection Et' as <- <-.
    cbn [fst snd]. split.
    + intros e. destruct r2 as [e2|[]]; simpl.
      * intros [= <-]. by apply R.
      * unfold handled. destruct r1 as [e1|x]; [|discriminate].
        destruct (caught e1) eqn:Ec; [discriminate|]. by intros [= <-].
    + intros Hi Ht. rewrite (O Ht). simpl.
      destruct (init_facts w s _ _ _ Ei) as (Hr & _).
      destruct (init_returns w s).
      * subst r1. split; [done|discriminate].
      * destruct Hr as [e ->]. unfold handled.
        rewrite (init_raises_ordinary w s _ _ _ Ei Hi). split; [done|].
        intros _ _. exists e.
        do 3 right. apply in_or_app; left. apply in_or_app; right. by left.
Qed.

(** C3, as amended.  When the constructor of step [k] raises (or the start
    of the execution unit), the shutdown steps that the teardown makes are
    an initial segment of those of the handles built before the call, in the
    fixed teardown order, and none is made on a handle that was not built.
    When what was raised is an instance of [Exception] and the shutdown
    operations raise nothing else, [run] returns 1 and the teardown makes
    the stop signal and the closes of exactly these handles; the unit is
    joined, right after the stop signal, when the stop signal returned and
    the unit is alive. *)
Theorem failed_construction_teardown
    (w : World) (s : Settings.t) (k : InitStep) (e : BaseException) :
  Settings.dry_run s = false →
  reaches w s k = true → constructor_raises w k = Some e →
  List.filter shutdown_call (run json_dumps w s).1
    `prefix_of` shutdown_sequence w (built_before s k)
  ∧ (caught e = true → teardown_ordinary w = true →
     (run json_dumps w s).2 = inr 1%Z
     ∧ List.filter shutdown_call (run json_dumps w s).1
       = shutdown_sequence w (built_before s k)).
Proof.
  intros Hdry Hk He.
  destruct (run_live w s (reaches_snapshot_written _ _ _ Hk) Hdry)
    as (f1 & tr1 & r1 & rest & r2 & Ei & Et & ->).
  destruct (init_fails_at w s k e Hk He) as (tr1' & Ei').
  rewrite Ei in Ei'. injection Ei' as -> <- ->.
  destruct (teardown_shape w (built_before s k))
    as (rest' & r2' & Et' & P & _ & Q & _ & O & _).
  rewrite Et in Et'. injection Et' as <- <-.
  cbn [fst snd]. rewrite (run_shutdown_calls w s _ _ _ rest Ei).
  split; [exact P|]. intros Hc Ht. specialize (O Ht). subst r2.
  unfold handled. rewrite Hc. split; [done|]. by destruct (Q eq_refl).
Qed.


Lemma teardown_ordinary_with (a : TeardownAnswers) (w : World) :
  teardown_ordinary (with_teardown a w) = answers_ordinary a.
Proof. by destruct a. Qed.

(** C5, as amended.  When the shutdown operations raise instances of
    [Exception] only, the outcome of [run] does not depend on their answers:
    it is what it is when none of them raises. *)
Theorem teardown_never_changes_outcome
    (w : World) (s : Settings.t) (a : TeardownAnswers) :
  answers_ordinary a = true →
  (run json_dumps (with_teardown a w) s).2
  = (run json_dumps (with_teardown clean_teardown w) s).2.
Proof.
  intros Ha. rewrite !run_unfold.
  change (basicConfig_raises (with_teardown a w)) with (basicConfig_raises w).
  change (mkdir_raises (with_teardown a w)) with (mkdir_raises w).
  change (write_text_raises (with_teardown a w)) with (write_text_raises w).
  change (basicConfig_raises (with_teardown clean_teardown w)) with (basicConfig_raises w).
  change (mkdir_raises (with_teardown clean_teardown w)) with (mkdir_raises w).
  change (write_text_raises (with_teardown clean_teardown w)) with (write_text_raises w).
  destruct (basicConfig_raises w), (mkdir_raises w), (write_text_raises w); try reflexivity.
  destruct (Settings.dry_run s); [reflexivity|].
  change (init_and_loop (with_teardown a w) s) with (init_and_loop w s).
  change (init_and_loop (with_teardown clean_teardown w) s) with (init_and_loop w s).
  destruct (init_and_loop w s no_handles) as [[f1 tr1] r1].
  destruct (teardown_shape (with_teardown a w) f1)
    as (rest & r2 & -> & _ & _ & _ & _ & O & _).
  destruct (teardown_shape (with_teardown clean_teardown w) f1)
    as (rest' & r2' & -> & _ & _ & _ & _ & O' & _).
  rewrite teardown_ordinary_with in O, O'.
  by rewrite (O Ha), (O' eq_refl).
Qed.

(** C6.  Whatever the settings value, dry run or not, the first calls of
    [run] are the logging setup, the creation of the logs directory with its
    parents (no error if it exists) and the write of [settings.json] in that
    directory, before any subsystem is touched; and the text written, parsed
    back, is the tree of every field of the settings value, with the paths
    as text. *)
Theorem snapshot_written_first
    (json_loads : string → option pyval) (w : World) (s : Settings.t) :
  (∀ v, json_value v = true → json_loads (json_dumps v) = Some v) →
  basicConfig_raises w = None → mkdir_raises w = None →
  ∃ text rest,
    (run json_dumps w s).1
    = basicConfig (upper (RunSettings.log_level (Settings.run s)))
      :: mkdir (RunSettings.logs_dir (Settings.run s)) true true
      :: write_text (joinpath (RunSettings.logs_dir (Settings.run s)) "settings.json")
           text "utf-8"
      :: rest
    ∧ json_loads text = Some (snapshot_tree s)
    ∧ _safe_asdict (of_Settings s) = snapshot_tree s.
Proof.
  intros Hrt Hb Hm. exists (json_dumps (snapshot_tree s)).
  rewrite run_unfold, Hb, Hm.
  assert (Hl : json_loads (json_dumps (snapshot_tree s)) = Some (snapshot_tree s))
    by apply Hrt, snapshot_tree_json.
  pose proof (_safe_asdict_of_Settings s) as Hsafe.
  destruct (write_text_raises w); [by exists []|].
  destruct (Settings.dry_run s); [by eexists|].
  destruct (init_and_loop w s no_handles) as [[f1 tr1] r1].
  destruct (teardown w f1) as [[f2 tr2] r2]. by eexists.
Qed.

(** C9.  In a live run the constructors, the start of the execution unit,
    the registration of the detector and the loop are called in the fixed
    order: what is called is an initial segment of [init_order], and all of
    it when the snapshot is written and every call returns. *)
Theorem init_order_fixed (w : World) (s : Settings.t) :
  Settings.dry_run s = false →
  List.filter init_call (run json_dumps w s).1 `prefix_of` init_order s
  ∧ (snapshot_written w = true → init_returns w s = true →
     List.filter init_call (run json_dumps w s).1 = init_order s).
Proof.
  intros Hdry. destruct (snapshot_written w) eqn:Hs.
  - destruct (run_live w s Hs Hdry) as (f1 & tr1 & r1 & rest & r2 & Ei & Et & ->).
    destruct (init_facts w s _ _ _ Ei) as (_ & P & Q & _).
    destruct (teardown_shape w f1)
      as (rest' & r2' & Et' & _ & _ & _ & _ & _ & I2 & _).
    rewrite Et in Et'. injection Et' as <- <-.
    destruct (opening_quiet s 3) as (_ & I0 & _).
    change (take 3 (opening json_dumps s)) with (opening json_dumps s) in I0.
    destruct (handled_quiet r1) as (Ih & _).
    cbn [fst]. rewrite !List.filter_app, I0, Ih. simpl.
    rewrite I2, !app_nil_r. auto.
  - split; [|discriminate].
    rewrite run_unfold. unfold snapshot_written in Hs.
    destruct (basicConfig_raises w), (mkdir_raises w), (write_text_raises w);
      try discriminate; apply prefix_nil.
Qed.

End lifecycle_theorems.

(** ** Configuration loading *)

Section config_properties.

Import lifecycle.

Variable getenv : string → option string.
Variable _project_root : Path.
Variable int_of_str : string → option Z.
Variable float_of_str : string → option spec_float.

Lemma rstrip_idempotent (t : string) : rstrip (rstrip t) = rstrip t.
Proof.
  induction t as [|c r IH]; simpl; [reflexivity|].
  destruct (isspace c && String.eqb (rstrip r) EmptyString) eqn:E; simpl; [reflexivity|].
  by rewrite IH, E.
Qed.

(** A text that does not begin with white space. *)
Lemma lstrip_head (s : string) :
  match lstrip s with EmptyString => True | String c _ => isspace c = false end.
Proof.
  induction s as [|c r IH]; simpl; [done|].
  destruct (isspace c) eqn:E; [done|]. simpl. done.
Qed.

Lemma lstrip_rstrip_head (t : string) :
  match t with EmptyString => True | String c _ => isspace c = false end →
  lstrip (rstrip t) = rstrip t.
Proof.
  destruct t as [|c r]; simpl; [done|]. intros Hc. rewrite Hc. simpl. by rewrite Hc.
Qed.

Lemma strip_idempotent (s : string) : strip (strip s) = strip s.
Proof.
  unfold strip. rewrite (lstrip_rstrip_head (lstrip s)) by apply lstrip_head.
  apply rstrip_idempotent.
Qed.

Lemma or_None_Some (s u : string) : or_None s = Some u → u = s ∧ u ≠ "".
Proof.
  unfold or_None, truthy. destruct (String.eqb_spec s ""); simpl; [done|].
  by intros [= <-].
Qed.

Lemma truthy_or_None (s : string) :
  truthy_opt (or_None s) = match or_None s with Some _ => true | None => false end.
Proof.
  unfold or_None. destruct (truthy s) eqn:E; simpl; [done|done].
Qed.

(** The URI that the radio table holds for a channel is the configured
    value of the variable of that channel. *)
Lemma radio_table_lookup (ch : string) :
  or_None (strip (dict_get
     [ ("7", strip (config.os_getenv getenv "RADIO_CHANNEL_7" ""));
       ("8", strip (config.os_getenv getenv "RADIO_CHANNEL_8" ""));
       ("9", strip (config.os_getenv getenv "RADIO_CHANNEL_9" "")) ] ch ""))
  = connection_uri getenv "radio" (Some ch).
Proof.
  unfold connection_uri.
  change (String.eqb "radio" "udp") with false.
  change (String.eqb "radio" "radio") with true.
  cbv iota. unfold configured, config.os_getenv. cbn [dict_get].
  destruct (String.eqb_spec "7" ch) as [<-|N7]; [by rewrite strip_idempotent|].
  destruct (String.eqb_spec "8" ch) as [<-|N8]; [by rewrite strip_idempotent|].
  destruct (String.eqb_spec "9" ch) as [<-|N9]; [by rewrite strip_idempotent|].
  rewrite bool_decide_eq_false_2; [done|].
  rewrite !elem_of_cons, elem_of_nil. intros [?|[?|[?|[]]]]; congruence.
Qed.

Lemma connection_uri_nonempty (mode : string) (channel : option string) (u : string) :
  connection_uri getenv mode channel = Some u → u ≠ "" ∧ truthy u = true.
Proof.
  assert (H : ∀ name, configured getenv name = Some u → u ≠ "" ∧ truthy u = true).
  { unfold configured, or_None. intros name.
    destruct (truthy _) eqn:T; [|done]. intros [= <-]. split; [|done].
    intros E. by rewrite E in T. }
  unfold connection_uri.
  destruct (String.eqb mode "udp"); [eauto|].
  destruct (String.eqb mode "radio"); [|done].
  destruct channel as [ch|]; [|done].
  destruct (bool_decide (ch ∈ ["7"; "8"; "9"])); [eauto|done].
Qed.

(** C7, as amended.  In the modes udp and radio, a session that is not a
    dry run and resolves to no non-empty URI makes [load_settings_from_env]
    raise; the settings it returns carry the non-empty URI that the session
    resolves to. *)
Theorem load_settings_requires_uri
    (mode : string) (dry_run : bool)
    (channel : option string) (channels : option (list string))
    (vision control waypoints : bool) (log_level : option string) :
  mode = "udp" ∨ mode = "radio" → dry_run = false →
  (connection_uri getenv mode channel = None →
   ∃ e, config.load_settings_from_env getenv _project_root int_of_str float_of_str
          mode dry_run channel channels vision control waypoints log_level = inl e)
  ∧ (∀ s, config.load_settings_from_env getenv _project_root int_of_str float_of_str
            mode dry_run channel channels vision control waypoints log_level = inr s →
          ∃ u, Settings.uri s = Some u ∧ u ≠ ""
               ∧ connection_uri getenv mode channel = Some u
               ∧ runner.uri_or_channels s = ChUri u).
Proof.
  intros Hmode ->. unfold config.load_settings_from_env.
  destruct (if truthy _ then _ else _) as [e|idx]; [split; [eauto|discriminate]|].
  destruct (float_of_str _) as [size|]; [|split; [eauto|discriminate]].
  cbn [RadioSettings.uri_by_channel negb andb].
  destruct Hmode as [-> | ->]; cbn [String.eqb Ascii.eqb Bool.eqb].
  - (* udp *)
    change (or_None (strip (config.os_getenv getenv "CF_URI_UDP" "")))
      with (connection_uri getenv "udp" channel).
    destruct (connection_uri getenv "udp" channel) as [u|] eqn:E.
    + apply connection_uri_nonempty in E as [Hne Ht].
      cbn [truthy_opt]. rewrite Ht. cbn [negb].
      split; [discriminate|]. intros s [= <-]. exists u.
      unfold runner.uri_or_channels. cbn [Settings.uri truthy_opt default from_option id].
      by rewrite Ht.
    + split; [eauto|discriminate].
  - (* radio *)
    destruct channel as [ch|]; cbn [truthy_opt negb default from_option id];
      [|split; [eauto|discriminate]].
    destruct (truthy ch) eqn:Tch; cbn [negb]; [|split; [eauto|discriminate]].
    rewrite radio_table_lookup.
    destruct (connection_uri getenv "radio" (Some ch)) as [u|] eqn:E.
    + apply connection_uri_nonempty in E as [Hne Ht].
      cbn [truthy_opt]. rewrite Ht. cbn [negb].
      split; [discriminate|]. intros s [= <-]. exists u.
      unfold runner.uri_or_channels. cbn [Settings.uri truthy_opt default from_option id].
      by rewrite Ht.
    + split; [eauto|discriminate].
Qed.

End config_properties.

(** ** The sample sessions *)

Section samples.

Import runner lifecycle.

(** The sample serialization reads back what it wrote. *)
Lemma of_digits_digits (p : positive) : sample.of_digits (sample.digits p) = Some p.
Proof. induction p as [q IH|q IH|]; simpl; by rewrite ?IH. Qed.

Lemma tree_float_float_tree (f : spec_float) :
  sample.tree_float (sample.float_tree f) = Some f.
Proof. by destruct f. Qed.

Lemma of_tree_to_tree (v : pyval) : sample.of_tree (sample.to_tree v) = Some v.
Proof.
  revert v. fix IH 1.
  assert (many : ∀ l : list pyval,
    (fix many (ts : list (gen_tree sample.leaf)) : option (list pyval) :=
       match ts with
       | [] => Some []
       | t :: ts' =>
           match sample.of_tree t, many ts' with
           | Some x, Some xs => Some (x :: xs)
           | _, _ => None
           end
       end) (map sample.to_tree l) = Some l).
  { induction l as [|x l IHl]; simpl; [done|]. by rewrite IH, IHl. }
  assert (items : ∀ l : list (string * pyval),
    (fix items (ts : list (gen_tree sample.leaf)) : option (list (string * pyval)) :=
       match ts with
       | [] => Some []
       | GenNode 0 [GenLeaf (inr k); t] :: ts' =>
           match sample.of_tree t, items ts' with
           | Some x, Some xs => Some ((k, x) :: xs)
           | _, _ => None
           end
       | _ => None
       end)
      (map (λ kv : string * pyval,
              GenNode 0 [sample.leafS kv.1; sample.to_tree kv.2]) l) = Some l).
  { induction l as [|[k x] l IHl]; simpl; [done|]. by rewrite IH, IHl. }
  intros [ | b | i | f | s | [a ps] | l | l | l | c l]; simpl; try reflexivity.
  - by rewrite tree_float_float_tree.
  - assert (E : mapM sample.tree_str (map sample.leafS ps) = Some ps)
      by (induction ps as [|p ps IHps]; simpl; [done|]; by rewrite IHps).
    by rewrite E.
  - by rewrite many.
  - by rewrite many.
  - by rewrite items.
  - by rewrite items.
Qed.

Lemma loads_dumps (v : pyval) : sample.loads (sample.dumps v) = Some v.
Proof.
  unfold sample.loads, sample.dumps.
  rewrite of_digits_digits. simpl. rewrite decode_encode. simpl.
  apply of_tree_to_tree.
Qed.

End samples.

Section sample_checks.

Import runner lifecycle observe.

(** C1 does not hold as stated: in the swarm session with vision, when the
    stop signal of the detector raises, the execution unit, which was
    started (the whole initialization was carried out) and is alive, is
    never joined, while the three closes are still made. *)
Lemma stop_failure_skips_join :
  let w := with_teardown sample.stop_fails sample.calm in
  let tr := (run sample.dumps w sample.swarm_vision).1 in
  List.filter init_call tr = init_order sample.swarm_vision
  ∧ is_alive_result w = inr true
  ∧ List.filter shutdown_call tr
    = [ DetectorRT_stop (the_detector sample.swarm_vision);
        SwarmCommand_close (the_swarm sample.swarm_vision);
        DroneLogs_close (the_logs sample.swarm_vision);
        DroneConnection_close (the_drone sample.swarm_vision) ]
  ∧ List.filter join_call tr = [].
Proof. cbv zeta. rewrite run_unfold. repeat split; reflexivity. Qed.

(** C2 does not hold as stated: when the write of the snapshot raises, the
    exception leaves [run]. *)
Lemma snapshot_failure_leaves_run :
  (run sample.dumps sample.snapshot_denied sample.radio_plain).2
  = inl (sample.PermissionError "[Errno 13] Permission denied").
Proof. by rewrite run_unfold. Qed.

Lemma run_returns_after_snapshot_witness :
  ((run sample.dumps sample.calm sample.radio_plain).2 = inr 0%Z)
  ∧ ((run sample.dumps sample.detector_fails sample.swarm_vision).2 = inr 1%Z)
  ∧ (∃ e, In (log_exception ("Fatal error in runner: " +:+ exc_msg e) e)
            (run sample.dumps sample.detector_fails sample.swarm_vision).1)
  ∧ (∀ e, (run sample.dumps (with_teardown sample.join_interrupted sample.calm)
             sample.swarm_vision).2 = inl e → caught e = false).
Proof.
  split; [|split; [|split]].
  - exact (proj1 (proj2 (run_returns_after_snapshot sample.dumps sample.calm
                           sample.radio_plain eq_refl) eq_refl eq_refl)).
  - exact (proj1 (proj2 (run_returns_after_snapshot sample.dumps sample.detector_fails
                           sample.swarm_vision eq_refl) eq_refl eq_refl)).
  - exact (proj2 (proj2 (run_returns_after_snapshot sample.dumps sample.detector_fails
                           sample.swarm_vision eq_refl) eq_refl eq_refl)
             eq_refl eq_refl).
  - exact (proj1 (run_returns_after_snapshot sample.dumps
                    (with_teardown sample.join_interrupted sample.calm)
                    sample.swarm_vision eq_refl)).
Defined.

(** The teardown of the swarm session with vision when every shutdown
    operation raises an instance of [Exception]: the stop signal and the
    three closes are made, in the fixed order, and the teardown returns. *)
Lemma teardown_blocks_independent_witness :
  let w := with_teardown sample.all_fail sample.calm in
  let f := built_before sample.swarm_vision loop_step in
  ∃ tr, teardown w f = (f, tr, inr tt)
        ∧ List.filter shutdown_call tr
          = [ DetectorRT_stop (the_detector sample.swarm_vision);
              SwarmCommand_close (the_swarm sample.swarm_vision);
              DroneLogs_close (the_logs sample.swarm_vision);
              DroneConnection_close (the_drone sample.swarm_vision) ].
Proof.
  cbv zeta.
  destruct (teardown_blocks_independent (with_teardown sample.all_fail sample.calm)
              (built_before sample.swarm_vision loop_step)) as (tr & r & E & _ & H & _).
  destruct (H eq_refl) as [-> Hs]. exists tr. split; [exact E|exact Hs].
Defined.

(** C3 does not hold as stated: in the swarm session with vision, when the
    constructor of the loop controller raises and then the stop signal of the
    detector, the execution unit, which was built and started before that
    step and is alive, is not joined: its shutdown operation is not
    attempted, while [run] returns 1 and the closes are made. *)
Lemma failed_stop_leaves_unit_unjoined :
  let w := sample.command_and_stop_fail in
  let s := sample.swarm_vision in
  let tr := (run sample.dumps w s).1 in
  reaches w s loop_step = true
  ∧ constructor_raises w loop_step = Some (sample.RuntimeError "no display")
  ∧ detector_thread (built_before s loop_step) = Some (the_thread s)
  ∧ List.filter init_call tr
    = [ DroneConnection_init (the_drone s); DroneLogs_init (the_logs s);
        SwarmCommand_init (the_swarm s); DetectorRT_init (the_detector s);
        Thread_init (the_thread s); Thread_start (the_thread s);
        Command_init (the_command s) ]
  ∧ is_alive_result w = inr true
  ∧ (run sample.dumps w s).2 = inr 1%Z
  ∧ List.filter shutdown_call tr
    = [ DetectorRT_stop (the_detector s); SwarmCommand_close (the_swarm s);
        DroneLogs_close (the_logs s); DroneConnection_close (the_drone s) ]
  ∧ List.filter join_call tr = [].
Proof. cbv zeta. rewrite run_unfold. repeat split; reflexivity. Qed.

(** The scenario of the specification: mode swarm, channels 7 8 9, vision
    enabled, the constructor of the detector raises. *)
Lemma failed_construction_teardown_witness :
  (run sample.dumps sample.detector_fails sample.swarm_vision).2 = inr 1%Z
  ∧ List.filter shutdown_call (run sample.dumps sample.detector_fails sample.swarm_vision).1
    = [ SwarmCommand_close (the_swarm sample.swarm_vision);
        DroneLogs_close (the_logs sample.swarm_vision);
        DroneConnection_close (the_drone sample.swarm_vision) ].
Proof.
  exact (proj2 (failed_construction_teardown sample.dumps sample.detector_fails
                  sample.swarm_vision detector_step (sample.RuntimeError "no camera")
                  eq_refl eq_refl eq_refl) eq_refl eq_refl).
Defined.

(** C5 does not hold as stated: in the swarm session with vision in which
    every call returns, [run] returns 0 when no shutdown operation raises,
    and raises when the join of the execution unit is interrupted: the
    handler of the vision block lets [KeyboardInterrupt] pass, which ends the
    teardown (no close is made) and discards the value that [run] was about
    to return. *)
Lemma interrupted_join_changes_outcome :
  let w := with_teardown sample.join_interrupted sample.calm in
  (run sample.dumps (with_teardown clean_teardown sample.calm) sample.swarm_vision).2
  = inr 0%Z
  ∧ (run sample.dumps w sample.swarm_vision).2 = inl sample.KeyboardInterrupt
  ∧ List.filter shutdown_call (run sample.dumps w sample.swarm_vision).1
    = [ DetectorRT_stop (the_detector sample.swarm_vision);
        Thread_join (the_thread sample.swarm_vision) join_timeout ].
Proof. cbv zeta. rewrite !run_unfold. repeat split; reflexivity. Qed.

Lemma teardown_never_changes_outcome_witness :
  (run sample.dumps (with_teardown sample.all_fail sample.calm) sample.swarm_vision).2
  = (run sample.dumps (with_teardown clean_teardown sample.calm) sample.swarm_vision).2.
Proof.
  exact (teardown_never_changes_outcome sample.dumps sample.calm sample.swarm_vision
           sample.all_fail eq_refl).
Defined.


Lemma snapshot_written_first_witness :
  ∃ text rest,
    (run sample.dumps sample.calm sample.radio_dry).1
    = basicConfig "INFO"
      :: mkdir (joinpath sample.project_root "logs") true true
      :: write_text (joinpath (joinpath sample.project_root "logs") "settings.json")
           text "utf-8"
      :: rest
    ∧ sample.loads text = Some (snapshot_tree sample.radio_dry)
    ∧ _safe_asdict (of_Settings sample.radio_dry) = snapshot_tree sample.radio_dry.
Proof.
  exact (snapshot_written_first sample.dumps sample.loads sample.calm sample.radio_dry
           (λ v _, loads_dumps v) eq_refl eq_refl).
Defined.

Lemma init_order_fixed_witness :
  List.filter init_call (run sample.dumps sample.calm sample.swarm_vision).1
  = [ DroneConnection_init (the_drone sample.swarm_vision);
      DroneLogs_init (the_logs sample.swarm_vision);
      SwarmCommand_init (the_swarm sample.swarm_vision);
      DetectorRT_init (the_detector sample.swarm_vision);
      Thread_init (the_thread sample.swarm_vision);
      Thread_start (the_thread sample.swarm_vision);
      Command_init (the_command sample.swarm_vision);
      Command_set_detector (the_command sample.swarm_vision)
        (the_detector sample.swarm_vision) (Some (the_thread sample.swarm_vision));
      Command_run (the_command sample.swarm_vision) ]
  ∧ List.filter init_call (run sample.dumps sample.detector_fails sample.swarm_vision).1
    `prefix_of` init_order sample.swarm_vision.
Proof.
  split.
  - exact (proj2 (init_order_fixed sample.dumps sample.calm sample.swarm_vision eq_refl)
             eq_refl eq_refl).
  - exact (proj1 (init_order_fixed sample.dumps sample.detector_fails sample.swarm_vision
                    eq_refl)).
Defined.

(** [fly udp --control] is rejected, and [fly udp --vision --control] gives
    arguments with both features. *)
Lemma parse_args_control_requires_vision_witness :
  (∃ a, cli.parse_args sample.argparse ["udp"; "--control"] = inl a)
  ∧ (∀ args, cli.parse_args sample.argparse ["udp"; "--vision"; "--control"] = inr args →
       CliArgs.control args = true → CliArgs.vision args = true).
Proof.
  split.
  - refine (proj1 (parse_args_control_requires_vision sample.argparse ["udp"; "--control"])
              (sample.udp_namespace false true []) eq_refl (or_introl eq_refl) _).
    split; [reflexivity|]. intros H. inversion H.
  - exact (proj2 (parse_args_control_requires_vision sample.argparse
                    ["udp"; "--vision"; "--control"])).
Defined.

(** [fly udp control --vision]: the flag is there, the token is not. *)
Lemma parse_args_tokens_validated_alone_witness :
  Namespace.vision (sample.udp_namespace true false ["control"]) = Some true
  ∧ cli.parse_args sample.argparse ["udp"; "control"; "--vision"]
    = inl (Raised (ValueError "`control` requires `vision` (click-to-go needs vision).")).
Proof.
  split; [reflexivity|].
  refine (parse_args_tokens_validated_alone sample.argparse ["udp"; "control"; "--vision"]
            (sample.udp_namespace true false ["control"]) eq_refl _ _).
  - unfold cli.has_token. simpl. apply list_elem_of_here.
  - unfold cli.has_token. simpl. intros H. inversion H as [|? ? ? H']. inversion H'.
Defined.

(** C7 does not hold as stated: a swarm session that is not a dry run and
    has no channel list is loaded, and the connection target of the
    settings is empty. *)
Lemma swarm_without_channels_loads :
  ∃ s, config.load_settings_from_env sample.getenv sample.project_root
         sample.int_of_str sample.float_of_str
         "swarm" false None None false false false None = inr s
       ∧ Settings.dry_run s = false
       ∧ uri_or_channels s = ChNone.
Proof. eexists. split; [reflexivity|]. split; reflexivity. Qed.

(** A radio session on channel 7 is loaded with the URI of that channel;
    on channel 8, which has no URI, loading raises. *)
Lemma load_settings_requires_uri_witness :
  (∃ e, config.load_settings_from_env sample.getenv sample.project_root
          sample.int_of_str sample.float_of_str
          "radio" false (Some "8") None false false false None = inl e)
  ∧ (∀ s, config.load_settings_from_env sample.getenv sample.project_root
            sample.int_of_str sample.float_of_str
            "radio" false (Some "7") None false false false None = inr s →
          ∃ u, Settings.uri s = Some u ∧ u ≠ ""
               ∧ connection_uri sample.getenv "radio" (Some "7") = Some u
               ∧ uri_or_channels s = ChUri u).
Proof.
  split.
  - exact (proj1 (load_settings_requires_uri sample.getenv sample.project_root
                    sample.int_of_str sample.float_of_str
                    "radio" false (Some "8") None false false false None
                    (or_intror eq_refl) eq_refl) eq_refl).
  - exact (proj2 (load_settings_requires_uri sample.getenv sample.project_root
                    sample.int_of_str sample.float_of_str
                    "radio" false (Some "7") None false false false None
                    (or_intror eq_refl) eq_refl)).
Defined.

End sample_checks.

(** * Further properties of the sources *)

(** ** [_safe_asdict] on arbitrary objects *)

Section safe_asdict_properties.

Import runner.

Lemma _safe_asdict_PTuple (l : list pyval) :
  _safe_asdict (PTuple l) = PList (map _safe_asdict l).
Proof. simp _safe_asdict. by rewrite (comprehension_map _safe_asdict). Qed.

(** Converting the dataclasses first changes nothing for [_safe_asdict]. *)
Lemma _safe_asdict_after_asdict (v : pyval) :
  _safe_asdict (_asdict_inner v) = _safe_asdict v.
Proof.
  revert v. fix IH 1.
  intros [ | b | i | f | s | p | l | l | l | c l]; try reflexivity.
  - cbn [_asdict_inner]. rewrite !_safe_asdict_PList, map_map. f_equal.
    induction l as [|x l IHl]; cbn [map]; [done|]. f_equal; [apply IH|apply IHl].
  - cbn [_asdict_inner]. rewrite !_safe_asdict_PTuple, map_map. f_equal.
    induction l as [|x l IHl]; cbn [map]; [done|]. f_equal; [apply IH|apply IHl].
  - cbn [_asdict_inner]. rewrite !_safe_asdict_PDict, map_map. f_equal.
    induction l as [|[k x] l IHl]; cbn [map fst snd]; [done|].
    f_equal; [f_equal; apply IH|apply IHl].
  - cbn [_asdict_inner]. rewrite _safe_asdict_PData, _safe_asdict_PDict, map_map.
    reflexivity.
Qed.

Lemma _safe_asdict_fields (cls : string) (fields : list (string * pyval)) :
  _safe_asdict (PData cls fields)
  = PDict (map (λ kv, (kv.1, _safe_asdict kv.2)) fields).
Proof.
  rewrite _safe_asdict_PData. f_equal. apply map_ext. intros [k v]. simpl.
  by rewrite _safe_asdict_after_asdict.
Qed.

Lemma _safe_asdict_is_json (v : pyval) : json_value (_safe_asdict v) = true.
Proof.
  revert v. fix IH 1.
  intros [ | b | i | f | s | p | l | l | l | c l]; try reflexivity.
  - rewrite _safe_asdict_PList. simpl.
    induction l as [|x l IHl]; simpl; [done|]. by rewrite IH, IHl.
  - rewrite _safe_asdict_PTuple. simpl.
    induction l as [|x l IHl]; simpl; [done|]. by rewrite IH, IHl.
  - rewrite _safe_asdict_PDict. simpl.
    induction l as [|[k x] l IHl]; simpl; [done|]. by rewrite IH, IHl.
  - rewrite _safe_asdict_fields. simpl.
    induction l as [|[k x] l IHl]; simpl; [done|]. by rewrite IH, IHl.
Qed.

Lemma _safe_asdict_keeps_json (v : pyval) : json_value v = true → _safe_asdict v = v.
Proof.
  revert v. fix IH 1.
  intros [ | b | i | f | s | p | l | l | l | c l]; try reflexivity; try discriminate.
  - simpl. intros H. rewrite _safe_asdict_PList. f_equal.
    induction l as [|x l IHl]; simpl in *; [done|].
    apply andb_prop in H as [Hx Hl]. by rewrite IH, IHl.
  - simpl. intros H. rewrite _safe_asdict_PDict. f_equal.
    induction l as [|[k x] l IHl]; simpl in *; [done|].
    apply andb_prop in H as [Hx Hl]. by rewrite IH, IHl.
Qed.

Lemma json_value_serializable (v : pyval) : json_value v = true → json_serializable v = true.
Proof.
  revert v. fix IH 1.
  intros [ | b | i | f | s | p | l | l | l | c l]; try reflexivity; try discriminate.
  - simpl. intros H.
    induction l as [|x l IHl]; simpl in *; [done|].
    apply andb_prop in H as [Hx Hl]. by rewrite IH, IHl.
  - simpl. intros H.
    induction l as [|[k x] l IHl]; simpl in *; [done|].
    apply andb_prop in H as [Hx Hl]. by rewrite IH, IHl.
Qed.

(** X1.  Whatever the object made of dataclasses, dicts with [str] keys
    (the dicts of a settings value), lists, tuples, paths and scalars, nested
    as one likes, the result of [_safe_asdict] holds no dataclass, no path
    and no tuple: [json.dumps] accepts it, and [json.loads] can return
    it. *)
Theorem _safe_asdict_json_ready (v : pyval) :
  json_serializable (_safe_asdict v) = true ∧ json_value (_safe_asdict v) = true.
Proof.
  split; [apply json_value_serializable|]; apply _safe_asdict_is_json.
Qed.

(** X2.  [_safe_asdict] leaves alone what is already plain JSON data. *)
Theorem _safe_asdict_identity_on_json (v : pyval) :
  json_value v = true → _safe_asdict v = v.
Proof. apply _safe_asdict_keeps_json. Qed.

(** X3.  [_safe_asdict] is idempotent. *)
Theorem _safe_asdict_idempotent (v : pyval) :
  _safe_asdict (_safe_asdict v) = _safe_asdict v.
Proof. apply _safe_asdict_keeps_json, _safe_asdict_is_json. Qed.

(** X4.  A dataclass instance becomes the dict of its fields, in the order
    of declaration, each converted in turn; a tuple becomes a list of the
    same length. *)
Theorem _safe_asdict_structure
    (cls : string) (fields : list (string * pyval)) (l : list pyval) :
  _safe_asdict (PData cls fields)
  = PDict (map (λ kv, (kv.1, _safe_asdict kv.2)) fields)
  ∧ _safe_asdict (PTuple l) = PList (map _safe_asdict l)
  ∧ _safe_asdict (PTuple l) = _safe_asdict (PList l).
Proof.
  split; [apply _safe_asdict_fields|].
  by rewrite _safe_asdict_PTuple, _safe_asdict_PList.
Qed.

End safe_asdict_properties.

(** ** More on the lifecycle *)

Section lifecycle_more.

Import runner lifecycle observe.

Variable json_dumps : pyval → string.

Ltac run_cbv :=
  cbv [init_and_loop vision_shutdown swarm_shutdown log_shutdown drone_shutdown
       import call emit raise assign get_locals mbind mret M_bind M_ret
       try_except try_finally app no_handles
       drone drone_logs swarm detector detector_thread
       import_raises DroneConnection_raises DroneLogs_raises SwarmCommand_raises
       DetectorRT_raises Thread_raises start_raises Command_raises set_detector_raises
       run_raises basicConfig_raises mkdir_raises write_text_raises
       stop_raises is_alive_result join_raises swarm_close_raises logs_close_raises
       drone_close_raises].

Ltac next_case :=
  match goal with
  | |- context [match ?o with Some _ => _ | None => _ end] => is_var o; destruct o
  | |- context [match ?o with inl _ => _ | inr _ => _ end] =>
      is_var o; destruct o as [?|[]]
  | |- context [match ?g ?x with Some _ => _ | None => _ end] =>
      is_var g; destruct (g x)
  end.

Lemma init_more (w : World) (s : Settings.t) :
  ∀ f1 tr1 r1, init_and_loop w s no_handles = (f1, tr1, r1) →
  List.filter is_teardown_banner tr1 = []
  ∧ (is_swarm s = false → List.filter swarm_call tr1 = [] ∧ swarm f1 = None)
  ∧ (has_vision s = false →
     List.filter vision_call tr1 = [] ∧ detector f1 = None ∧ detector_thread f1 = None)
  ∧ (reaches w s loop_step = true → Command_raises w = None →
     f1 = built_before s loop_step
     ∧ if loop_returns w s then r1 = inr 0%Z
       else ∃ e, r1 = inl e
                 ∧ (set_detector_raises w = Some e ∨ run_raises w = Some e)).
Proof.
  intros f1 tr1 r1.
  unfold reaches, built_before, snapshot_written, loop_returns, is_swarm, has_vision.
  destruct w as [bc mk wt imp c_dc c_dl c_sc c_det c_th c_start c_cmd c_set c_run
                   t1 t2 t3 t4 t5 t6].
  run_cbv.
  destruct (String.eqb (Settings.mode s) "swarm") eqn:Esw;
  destruct (VisionSettings.enabled (Settings.vision s)) eqn:Evis.
  all: repeat next_case.
  all: intros [= <- <- <-].
  all: split; [reflexivity|]; split; [intros; try discriminate; by split|].
  all: split; [intros; try discriminate; by repeat split|].
  all: simpl; rewrite ?andb_false_r; intros; try discriminate.
  all: split; [reflexivity|]; simpl; eauto.
Qed.

End lifecycle_more.

Section lifecycle_more_theorems.

Import runner lifecycle observe.

Variable json_dumps : pyval → string.

Lemma snapshot_not_written (w : World) (s : Settings.t) :
  snapshot_written w = false →
  ∃ n e, run json_dumps w s = (take n (opening json_dumps s), inl e).
Proof.
  unfold snapshot_written. rewrite run_unfold.
  destruct (basicConfig_raises w), (mkdir_raises w), (write_text_raises w);
    try discriminate; intros _; try (by exists 1; eexists); try (by exists 2; eexists).
  by exists 3; eexists.
Qed.

(** X5.  The teardown logs what a block raised only when it is an instance
    of [Exception], block after block; what is not passes the handler, is
    not logged, and leaves the teardown.  When the shutdown operations raise
    instances of [Exception] only, the teardown returns, and has logged
    exactly one line per block that failed, with the message of that block
    and the exception that ended it, in the order of the blocks, and nothing
    for a block that completed or whose handle is absent. *)
Theorem teardown_logs_each_failure (w : World) (f : Locals) :
  ∃ rest r, teardown w f = (f, teardown_banner :: rest, r)
    ∧ List.filter is_log_exception rest `prefix_of` teardown_failure_logs w f
    ∧ forallb logs_caught_only rest = true
    ∧ (∀ e, r = inl e → caught e = false)
    ∧ (teardown_ordinary w = true →
       r = inr tt ∧ List.filter is_log_exception rest = teardown_failure_logs w f).
Proof.
  destruct (teardown_shape w f)
    as (rest & r & E & _ & P & Q & R & O & _ & _ & _ & _ & C).
  exists rest, r. repeat split; auto.
  - by destruct (Q (O H)).
Qed.

(** X6.  Once the loop controller is constructed, however the registration
    of the detector and the loop end, as long as what they and the shutdown
    operations raise are instances of [Exception], the teardown goes through
    the five shutdown steps of every handle built, in the fixed order, and
    [run] returns 0 when both returned and 1 otherwise. *)
Theorem loop_end_teardown (w : World) (s : Settings.t) :
  Settings.dry_run s = false →
  reaches w s loop_step = true → Command_raises w = None →
  ordinary (set_detector_raises w) = true → ordinary (run_raises w) = true →
  teardown_ordinary w = true →
  (run json_dumps w s).2 = inr (if loop_returns w s then 0 else 1)%Z
  ∧ List.filter shutdown_call (run json_dumps w s).1
    = shutdown_sequence w (built_before s loop_step).
Proof.
  intros Hdry Hk Hc Hset Hrun Ht.
  destruct (run_live json_dumps w s (reaches_snapshot_written _ _ _ Hk) Hdry)
    as (f1 & tr1 & r1 & rest & r2 & Ei & Et & ->).
  destruct (init_more w s _ _ _ Ei) as (_ & _ & _ & H).
  destruct (H Hk Hc) as [-> Hr]. clear H.
  destruct (teardown_shape w (built_before s loop_step))
    as (rest' & r2' & Et' & _ & _ & Q & _ & O & _).
  rewrite Et in Et'. injection Et' as <- <-.
  specialize (O Ht). subst r2. destruct (Q eq_refl) as [S2 _].
  cbn [fst snd]. rewrite (run_shutdown_calls json_dumps w s _ _ _ rest Ei).
  split; [|exact S2]. simpl.
  destruct (loop_returns w s); [by subst r1|].
  destruct Hr as (e & -> & [He|He]); unfold handled.
  - rewrite He in Hset. simpl in Hset. by rewrite Hset.
  - rewrite He in Hrun. simpl in Hrun. by rewrite Hrun.
Qed.

(** X7.  In a live run the teardown is entered exactly once, after the
    last call of the initialization and of the loop: the trace splits at the
    one banner of the teardown into a part without shutdown call and a part
    without initialization call. *)
Theorem teardown_once_after_init (w : World) (s : Settings.t) :
  snapshot_written w = true → Settings.dry_run s = false →
  ∃ pre post,
    (run json_dumps w s).1 = (pre ++ teardown_banner :: post)%list
    ∧ List.filter shutdown_call pre = []
    ∧ List.filter init_call post = []
    ∧ List.filter is_teardown_banner pre = []
    ∧ List.filter is_teardown_banner post = [].
Proof.
  intros Hs Hdry.
  destruct (run_live json_dumps w s Hs Hdry)
    as (f1 & tr1 & r1 & rest & r2 & Ei & Et & ->).
  destruct (init_more w s _ _ _ Ei) as (B1 & _).
  destruct (init_facts w s _ _ _ Ei) as (_ & _ & _ & C1 & J1 & _).
  destruct (teardown_shape w f1)
    as (rest' & r2' & Et' & _ & _ & _ & _ & _ & I2 & B2 & _).
  rewrite Et in Et'. injection Et' as <- <-.
  destruct (opening_silent json_dumps s 3) as (B0 & _ & _ & S0).
  change (take 3 (opening json_dumps s)) with (opening json_dumps s) in B0, S0.
  destruct (handled_quiet r1) as (_ & Bh & _ & _ & Sh).
  exists (opening json_dumps s ++ tr1 ++ (handled r1).1)%list, rest.
  cbn [fst]. split; [by rewrite <- !app_assoc|].
  rewrite !List.filter_app, S0, B0, (filter_shutdown_nil _ C1 J1), Sh, B1, Bh. auto.
Qed.

(** X8.  When logging setup or the snapshot write raises, the exception
    leaves [run] at once: no subsystem is touched and no teardown is run. *)
Theorem snapshot_failure_touches_nothing (w : World) (s : Settings.t) :
  snapshot_written w = false →
  (∃ e, (run json_dumps w s).2 = inl e)
  ∧ List.filter subsystem_call (run json_dumps w s).1 = []
  ∧ List.filter is_teardown_banner (run json_dumps w s).1 = [].
Proof.
  intros H. destruct (snapshot_not_written w s H) as (n & e & ->). cbn [fst snd].
  split; [eauto|]. split.
  - apply (opening_quiet json_dumps s n).
  - apply (opening_silent json_dumps s n).
Qed.

(** X9.  A subsystem that the settings do not ask for is never touched,
    whatever the collaborators answer: outside the swarm mode no call imports,
    builds or closes the swarm controller; with vision disabled no call
    imports, builds, starts, registers, stops or joins the detector or its
    execution unit. *)
Theorem unused_subsystems_untouched (w : World) (s : Settings.t) :
  (is_swarm s = false → List.filter swarm_call (run json_dumps w s).1 = [])
  ∧ (has_vision s = false → List.filter vision_call (run json_dumps w s).1 = []).
Proof.
  destruct (snapshot_written w) eqn:Hs.
  - destruct (Settings.dry_run s) eqn:Hdry.
    + apply snapshot_written_inv in Hs as (Hb & Hm & Hw).
      rewrite run_unfold, Hb, Hm, Hw, Hdry. by split.
    + destruct (run_live json_dumps w s Hs Hdry)
        as (f1 & tr1 & r1 & rest & r2 & Ei & Et & ->).
      destruct (init_more w s _ _ _ Ei) as (_ & W1 & V1 & _).
      destruct (teardown_shape w f1)
        as (rest' & r2' & Et' & _ & _ & _ & _ & _ & _ & _ & W2 & V2 & _).
      rewrite Et in Et'. injection Et' as <- <-.
      destruct (opening_silent json_dumps s 3) as (_ & W0 & V0 & _).
      change (take 3 (opening json_dumps s)) with (opening json_dumps s) in W0, V0.
      destruct (handled_quiet r1) as (_ & _ & Wh & Vh & _).
      cbn [fst]. split; intros H.
      * destruct (W1 H) as [W1' Hf].
        rewrite !List.filter_app, W0, W1', Wh. simpl. by rewrite (W2 Hf).
      * destruct (V1 H) as (V1' & Hd & Ht).
        rewrite !List.filter_app, V0, V1', Vh. simpl. by rewrite (V2 Hd Ht).
  - destruct (snapshot_not_written w s Hs) as (n & e & ->). cbn [fst].
    split; intros _; apply (opening_silent json_dumps s n).
Qed.

End lifecycle_more_theorems.

(** ** More on the command line *)

Section cli_more.

Import words.

Variable argparse : list string → Z + Namespace.t.

(** The three booleans that [parse_args] gets from the trailing tokens. *)
Lemma tokens_full (extras : list string) :
  let token_extras := filter (λ e, lower e ∈ cli._EXTRA_TOKENS) extras in
  ∀ v c w,
    (match token_extras with
     | [] => inr (false, false, false)
     | _ :: _ => cli._parse_extras token_extras
     end) = inr (v, c, w) →
    v = bool_decide ("vision" ∈ lower <$> extras)
    ∧ c = bool_decide ("control" ∈ lower <$> extras)
    ∧ w = bool_decide ("waypoint" ∈ lower <$> extras)
          || bool_decide ("waypoints" ∈ lower <$> extras)
    ∧ (c = true → v = true).
Proof.
  intros token_extras v c w.
  assert (K : ∀ tok, tok ∈ cli._EXTRA_TOKENS →
            bool_decide (tok ∈ lower <$> token_extras)
            = bool_decide (tok ∈ lower <$> extras))
    by (intros tok Hk; apply bool_decide_ext, known_token_kept, Hk).
  rewrite <- (K "vision"), <- (K "control"), <- (K "waypoint"), <- (K "waypoints")
    by set_solver.
  destruct token_extras as [|t ts].
  - intros [= <- <- <-].
    rewrite !bool_decide_eq_false_2 by apply not_elem_of_nil. auto.
  - unfold cli._parse_extras.
    rewrite !(bool_decide_ext _ _ (elem_of_list_to_set (C := gset string) _ _)).
    destruct (bool_decide ("control" ∈ _)), (bool_decide ("vision" ∈ _));
      simpl; intros [= <- <- <-]; auto.
Qed.

(** What [parse_args] returns, when it returns. *)
Lemma parse_args_inv (argv : list string) (args : CliArgs.t) :
  cli.parse_args argparse argv = inr args →
  ∃ ns, argparse argv = inr ns
    ∧ CliArgs.mode args = Namespace.mode ns
    ∧ (CliArgs.mode args = "udp" ∨ CliArgs.mode args = "radio"
       ∨ CliArgs.mode args = "swarm")
    ∧ CliArgs.vision args = asks_vision ns
    ∧ CliArgs.control args = asks_control ns
    ∧ CliArgs.waypoints args = asks_waypoints ns
    ∧ (CliArgs.control args = true → CliArgs.vision args = true)
    ∧ CliArgs.dry_run args = Namespace.dry_run ns
    ∧ CliArgs.log_level args = Namespace.log_level ns
    ∧ CliArgs.channel args
      = (if String.eqb (Namespace.mode ns) "radio" then Namespace.channel ns else None)
    ∧ CliArgs.channels args
      = (if String.eqb (Namespace.mode ns) "swarm" then Namespace.channels ns else None)
    ∧ (CliArgs.mode args = "radio" → is_Some (CliArgs.channel args))
    ∧ (CliArgs.mode args = "swarm" → is_Some (CliArgs.channels args)).
Proof.
  unfold cli.parse_args, asks_vision, asks_control, asks_waypoints, token.
  destruct (argparse argv) as [status|ns]; [discriminate|].
  pose proof (tokens_full (default [] (Namespace.extras ns))) as T. simpl in T.
  destruct (match filter _ _ with [] => _ | _ => _ end) as [e|[[tv tc] tw]];
    [discriminate|].
  destruct (T _ _ _ eq_refl) as (-> & -> & -> & Himp). clear T.
  set (v := default false (Namespace.vision ns) || _) in *.
  set (c := default false (Namespace.control ns) || _) in *.
  intros H. exists ns. split; [done|].
  assert (Hcv : c = true → v = true).
  { revert H. destruct c, v; try done. }
  destruct (c && negb v); [discriminate|].
  destruct (String.eqb_spec (Namespace.mode ns) "udp") as [Eu|Nu].
  { injection H as <-. rewrite Eu. simpl. rewrite orb_assoc. by repeat split; auto. }
  destruct (String.eqb_spec (Namespace.mode ns) "radio") as [Er|Nr].
  { destruct (Namespace.channel ns) as [ch|]; [|discriminate].
    injection H as <-. rewrite Er. simpl. rewrite orb_assoc.
    by repeat split; eauto. }
  destruct (String.eqb_spec (Namespace.mode ns) "swarm") as [Es|Ns]; [|discriminate].
  destruct (Namespace.channels ns) as [chs|]; [|discriminate].
  injection H as <-. rewrite Es. simpl. rewrite orb_assoc.
  by repeat split; eauto.
Qed.

(** X10.  Arguments that [parse_args] returns have one of the three modes,
    a channel exactly in the radio mode and a channel list exactly in the
    swarm mode; each feature is on when its flag is set or its token occurs
    among the trailing tokens in any case ([waypoint] or [waypoints] for the
    waypoints), tokens that are not known being ignored; the dry-run flag
    and the log level are those of the command line. *)
Theorem parse_args_returns (argv : list string) (args : CliArgs.t) :
  cli.parse_args argparse argv = inr args →
  ∃ ns, argparse argv = inr ns
    ∧ CliArgs.mode args = Namespace.mode ns
    ∧ (CliArgs.mode args = "udp" ∨ CliArgs.mode args = "radio"
       ∨ CliArgs.mode args = "swarm")
    ∧ CliArgs.vision args = asks_vision ns
    ∧ CliArgs.control args = asks_control ns
    ∧ CliArgs.waypoints args = asks_waypoints ns
    ∧ CliArgs.dry_run args = Namespace.dry_run ns
    ∧ CliArgs.log_level args = Namespace.log_level ns
    ∧ (is_Some (CliArgs.channel args) ↔ CliArgs.mode args = "radio")
    ∧ (is_Some (CliArgs.channels args) ↔ CliArgs.mode args = "swarm").
Proof.
  intros H. destruct (parse_args_inv argv args H)
    as (ns & Ha & Hm & Hmode & Hv & Hc & Hw & _ & Hd & Hl & Hch & Hchs & Hr & Hs).
  exists ns. repeat split; auto.
  - rewrite Hch. destruct (String.eqb_spec (Namespace.mode ns) "radio") as [E|N];
      [by rewrite Hm|]. by intros [? [=]].
  - rewrite Hchs. destruct (String.eqb_spec (Namespace.mode ns) "swarm") as [E|N];
      [by rewrite Hm|]. by intros [? [=]].
Qed.

End cli_more.

(** ** More on configuration loading *)

Section config_more.

Import words lifecycle.

Variable getenv : string → option string.
Variable _project_root : Path.
Variable int_of_str : string → option Z.
Variable float_of_str : string → option spec_float.

Lemma upper_idempotent (s : string) : upper (upper s) = upper s.
Proof.
  induction s as [|c r IH]; simpl; [done|]. f_equal; [|done].
  unfold upper_ascii.
  destruct (between 97 122 (N_of_ascii c)) eqn:E; [|by rewrite E].
  unfold between in E. apply andb_prop in E as [E1 E2].
  apply N.leb_le in E1. apply N.leb_le in E2.
  rewrite N_ascii_embedding by lia.
  unfold between. replace (97 <=? N_of_ascii c - 32)%N with false; [done|].
  symmetry. apply N.leb_gt. lia.
Qed.

Lemma connection_uri_truthy (mode : string) (channel : option string) :
  truthy_opt (connection_uri getenv mode channel)
  = bool_decide (is_Some (connection_uri getenv mode channel)).
Proof.
  destruct (connection_uri getenv mode channel) as [u|] eqn:E.
  - apply (connection_uri_nonempty getenv) in E as [_ Ht].
    rewrite bool_decide_eq_true_2 by eauto. exact Ht.
  - rewrite bool_decide_eq_false_2; [done|]. by intros [? [=]].
Qed.

Lemma connection_uri_other (mode : string) (channel : option string) :
  mode ≠ "udp" → mode ≠ "radio" → connection_uri getenv mode channel = None.
Proof.
  intros Nu Nr. unfold connection_uri.
  destruct (String.eqb_spec mode "udp"); [done|].
  by destruct (String.eqb_spec mode "radio").
Qed.

(** [load_settings_from_env], outcome by outcome. *)
Lemma load_settings_outcome
    (mode : string) (dry_run : bool)
    (channel : option string) (channels : option (list string))
    (vision control waypoints : bool) (log_level : option string) :
  match config.load_settings_from_env getenv _project_root int_of_str float_of_str
          mode dry_run channel channels vision control waypoints log_level with
  | inr s =>
      conversions_succeed getenv int_of_str float_of_str
      ∧ target_resolves getenv mode dry_run channel
      ∧ Settings.uri s = connection_uri getenv mode channel
      ∧ Settings.mode s = mode ∧ Settings.dry_run s = dry_run
      ∧ VisionSettings.enabled (Settings.vision s) = vision
      ∧ VisionSettings.control_enabled (Settings.vision s) = control
      ∧ FeatureFlags.waypoints (Settings.features s) = waypoints
      ∧ SwarmSettings.enabled (Settings.swarm s) = String.eqb mode "swarm"
      ∧ SwarmSettings.channels (Settings.swarm s)
        = (if String.eqb mode "swarm" then channels else None)
      ∧ RunSettings.log_level (Settings.run s)
        = upper (if truthy_opt log_level then default "" log_level
                 else config.os_getenv getenv "NEST_LOG_LEVEL" "INFO")
  | inl _ =>
      ¬ (conversions_succeed getenv int_of_str float_of_str
         ∧ target_resolves getenv mode dry_run channel)
  end.
Proof.
  unfold config.load_settings_from_env, conversions_succeed, target_resolves.
  set (cam := strip (config.os_getenv getenv "NEST_CAMERA_INDEX" "")).
  set (size := float_of_str (config.os_getenv getenv "NEST_MARKER_SIZE_M" "0.040")).
  assert (Hcam : ∀ idx,
    (if truthy cam
     then match int_of_str cam with
          | Some i => inr (Some i)
          | None => inl (ValueError ("invalid literal for int() with base 10: " +:+ cam))
          end
     else inr None) = inr idx →
    truthy cam = true → is_Some (int_of_str cam)).
  { intros idx. destruct (truthy cam); [|done].
    destruct (int_of_str cam); [eauto|discriminate]. }
  destruct (if truthy cam then _ else _) as [e|idx] eqn:Ecam.
  { intros [[Hi _] _]. destruct (truthy cam); [|discriminate].
    destruct (int_of_str cam); [discriminate|]. by destruct (Hi eq_refl). }
  specialize (Hcam idx eq_refl).
  destruct size as [sz|] eqn:Esz; [|by intros [[_ [? [=]]] _]].
  cbn [RadioSettings.uri_by_channel].
  destruct (String.eqb_spec mode "radio") as [->|Nr].
  - (* radio *)
    change (String.eqb "radio" "udp") with false. cbv iota.
    destruct channel as [ch|]; cbn [truthy_opt negb default from_option id];
      [|by intros [_ [H _]]; specialize (H eq_refl)].
    destruct (truthy ch) eqn:Tch; cbn [negb];
      [|by intros [_ [H _]]; specialize (H eq_refl)].
    rewrite radio_table_lookup, connection_uri_truthy.
    destruct dry_run; cbn [negb andb].
    + repeat split; eauto; try done.
    + case_bool_decide as Hu; cbn [negb].
      * repeat split; eauto; try done.
      * intros [_ [_ H]]. apply Hu, H; auto.
  - destruct (String.eqb_spec mode "udp") as [->|Nu].
    + (* udp *)
      change (or_None (strip (config.os_getenv getenv "CF_URI_UDP" "")))
        with (connection_uri getenv "udp" channel).
      rewrite connection_uri_truthy.
      destruct dry_run; cbn [negb andb].
      * repeat split; eauto; try done.
      * case_bool_decide as Hu; cbn [negb].
        -- repeat split; eauto; try done.
        -- intros [_ [_ H]]. apply Hu, H; auto.
    + (* swarm, and anything else *)
      rewrite (connection_uri_other mode channel Nu Nr).
      repeat split; eauto; try done. intros _ [?|?]; done.
Qed.

(** X11.  [load_settings_from_env] returns exactly when the camera index
    and the marker size of the environment convert, the radio mode has a
    channel key, and, unless the session is a dry run, the modes udp and
    radio resolve to a URI; the URI of the settings is then the one the
    session resolves to (none in a dry run without one, none in the swarm
    mode). *)
Theorem load_settings_returns_iff
    (mode : string) (dry_run : bool)
    (channel : option string) (channels : option (list string))
    (vision control waypoints : bool) (log_level : option string) :
  match config.load_settings_from_env getenv _project_root int_of_str float_of_str
          mode dry_run channel channels vision control waypoints log_level with
  | inr s =>
      conversions_succeed getenv int_of_str float_of_str
      ∧ target_resolves getenv mode dry_run channel
      ∧ Settings.uri s = connection_uri getenv mode channel
  | inl _ =>
      ¬ (conversions_succeed getenv int_of_str float_of_str
         ∧ target_resolves getenv mode dry_run channel)
  end.
Proof.
  pose proof (load_settings_outcome mode dry_run channel channels
                vision control waypoints log_level) as H.
  destruct (config.load_settings_from_env _ _ _ _ _ _ _ _ _ _ _ _); [done|].
  destruct H as (? & ? & ? & _). auto.
Qed.

(** X12.  The radio mode needs a channel key even in a dry run: without
    one (absent or empty) [load_settings_from_env] raises. *)
Theorem load_settings_radio_needs_channel
    (dry_run : bool) (channel : option string) (channels : option (list string))
    (vision control waypoints : bool) (log_level : option string) :
  truthy_opt channel = false →
  ∃ e, config.load_settings_from_env getenv _project_root int_of_str float_of_str
         "radio" dry_run channel channels vision control waypoints log_level = inl e.
Proof.
  intros Hch.
  pose proof (load_settings_outcome "radio" dry_run channel channels
                vision control waypoints log_level) as H.
  destruct (config.load_settings_from_env _ _ _ _ _ _ _ _ _ _ _ _) as [e|s]; [eauto|].
  destruct H as (_ & [H _] & _). specialize (H eq_refl). congruence.
Qed.

(** X13.  A camera index that is set and does not convert makes
    [load_settings_from_env] raise a [ValueError] in every mode, in a dry
    run and with vision disabled as well. *)
Theorem load_settings_bad_camera_index
    (mode : string) (dry_run : bool)
    (channel : option string) (channels : option (list string))
    (vision control waypoints : bool) (log_level : option string) :
  truthy (strip (config.os_getenv getenv "NEST_CAMERA_INDEX" "")) = true →
  int_of_str (strip (config.os_getenv getenv "NEST_CAMERA_INDEX" "")) = None →
  ∃ msg, config.load_settings_from_env getenv _project_root int_of_str float_of_str
           mode dry_run channel channels vision control waypoints log_level
         = inl (ValueError msg).
Proof.
  intros Ht Hi. unfold config.load_settings_from_env. rewrite Ht, Hi. eauto.
Qed.

End config_more.

(** ** [main]: the command line, the configuration and the run together *)

Section main_more.

Import runner lifecycle words.

Variable argparse : list string → Z + Namespace.t.
Variable getenv : string → option string.
Variable _project_root : Path.
Variable int_of_str : string → option Z.
Variable float_of_str : string → option spec_float.
Variable json_dumps : pyval → string.

Lemma run_status (w : World) (s : Settings.t) (n : Z) :
  (run json_dumps w s).2 = inr n → n = 0%Z ∨ n = 1%Z.
Proof.
  rewrite run_unfold.
  destruct (basicConfig_raises w), (mkdir_raises w), (write_text_raises w);
    try discriminate.
  destruct (Settings.dry_run s); [intros [= <-]; auto|].
  destruct (init_and_loop w s no_handles) as [[f1 tr1] r1] eqn:Ei.
  destruct (init_facts w s _ _ _ Ei) as (Hr & _).
  destruct (teardown w f1) as [[f2 tr2] [e2|[]]]; cbn [snd after_teardown];
    [discriminate|].
  unfold handled.
  destruct (init_returns w s); [subst r1|destruct Hr as [e ->]].
  - intros [= <-]; auto.
  - destruct (caught e); intros [= <-]; auto.
Qed.

(** What leaves [run], when it is an instance of [Exception], was raised
    by logging setup or by the snapshot write: no call of the initialization
    was made and the teardown was not entered. *)
Lemma run_raises_early (w : World) (s : Settings.t) (e : BaseException) :
  (run json_dumps w s).2 = inl e → caught e = true →
  List.filter init_call (run json_dumps w s).1 = []
  ∧ List.filter observe.is_teardown_banner (run json_dumps w s).1 = [].
Proof.
  destruct (snapshot_written w) eqn:Hs.
  - destruct (Settings.dry_run s) eqn:Hdry.
    + apply snapshot_written_inv in Hs as (Hb & Hm & Hw).
      rewrite run_unfold, Hb, Hm, Hw, Hdry. discriminate.
    + destruct (run_live json_dumps w s Hs Hdry)
        as (f1 & tr1 & r1 & rest & r2 & Ei & Et & ->).
      destruct (teardown_shape w f1) as (rest' & r2' & Et' & _ & _ & _ & R & _).
      rewrite Et in Et'. injection Et' as <- <-.
      cbn [fst snd]. intros H Hc. exfalso.
      destruct r2 as [e2|[]]; simpl in H.
      * injection H as <-. rewrite (R e2 eq_refl) in Hc. discriminate.
      * unfold handled in H. destruct r1 as [e1|x]; [|discriminate].
        destruct (caught e1) eqn:Ec; [discriminate|].
        injection H as <-. congruence.
  - destruct (snapshot_not_written json_dumps w s Hs) as (n & e' & ->). cbn [fst snd].
    intros _ _. split.
    + apply (opening_quiet json_dumps s n).
    + apply (opening_silent json_dumps s n).
Qed.

(** The connection target of a session that is not a dry run. *)
Lemma loaded_target (ns : Namespace.t) (args : CliArgs.t) (s : Settings.t) :
  CliArgs.mode args = Namespace.mode ns →
  (CliArgs.mode args = "udp" ∨ CliArgs.mode args = "radio" ∨ CliArgs.mode args = "swarm") →
  CliArgs.channels args
  = (if String.eqb (Namespace.mode ns) "swarm" then Namespace.channels ns else None) →
  (CliArgs.mode args = "swarm" → is_Some (CliArgs.channels args)) →
  config.load_settings_from_env getenv _project_root int_of_str float_of_str
    (CliArgs.mode args) (CliArgs.dry_run args) (CliArgs.channel args)
    (CliArgs.channels args) (CliArgs.vision args) (CliArgs.control args)
    (CliArgs.waypoints args) (CliArgs.log_level args) = inr s →
  Settings.dry_run s = false →
  match uri_or_channels s with
  | ChUri u => u ≠ "" ∧ (Settings.mode s = "udp" ∨ Settings.mode s = "radio")
  | ChList chs => Settings.mode s = "swarm" ∧ Namespace.channels ns = Some chs
  | ChNone => False
  end.
Proof.
  intros Hm Hmode Hchs Hsw E Hdry.
  pose proof (load_settings_outcome getenv _project_root int_of_str float_of_str
                (CliArgs.mode args) (CliArgs.dry_run args) (CliArgs.channel args)
                (CliArgs.channels args) (CliArgs.vision args) (CliArgs.control args)
                (CliArgs.waypoints args) (CliArgs.log_level args)) as H.
  rewrite E in H.
  destruct H as (_ & [_ Ht] & Hu & Hmo & Hd & _ & _ & _ & _ & Hc & _).
  rewrite Hdry in Hd. symmetry in Hd. specialize (Ht Hd).
  unfold uri_or_channels. rewrite Hu, Hmo, Hc.
  destruct Hmode as [Em|[Em|Em]].
  - destruct Ht as [u Eu]; [auto|]. rewrite Eu.
    apply connection_uri_nonempty in Eu as [Hne Htr]. simpl. rewrite Htr. auto.
  - destruct Ht as [u Eu]; [auto|]. rewrite Eu.
    apply connection_uri_nonempty in Eu as [Hne Htr]. simpl. rewrite Htr. auto.
  - rewrite (connection_uri_other getenv) by (rewrite Em; done). simpl.
    destruct (Hsw Em) as [chs Echs]. rewrite Em. simpl.
    rewrite Echs. split; [done|].
    rewrite Hchs, <- Hm, Em in Echs. exact Echs.
Qed.

(** X14.  [main] makes a call only for a session that passed both checks:
    whenever its trace is not empty, the command line was parsed and the
    settings were loaded; these settings have control only with vision, one
    of the three modes, and, unless the session is a dry run, a connection
    target: a non-empty URI in the modes udp and radio, the channel list of
    the command line in the swarm mode.  The trace is then the import of the
    runner followed by the trace of [run] on these settings. *)
Theorem main_runs_only_valid_sessions (w : World) (argv : list string) :
  (entry.main argparse getenv _project_root int_of_str float_of_str json_dumps w argv).1
  ≠ [] →
  ∃ ns s,
    argparse argv = inr ns
    ∧ (VisionSettings.control_enabled (Settings.vision s) = true →
       VisionSettings.enabled (Settings.vision s) = true)
    ∧ (Settings.mode s = "udp" ∨ Settings.mode s = "radio" ∨ Settings.mode s = "swarm")
    ∧ Settings.dry_run s = Namespace.dry_run ns
    ∧ (Settings.dry_run s = false →
       match uri_or_channels s with
       | ChUri u => u ≠ "" ∧ (Settings.mode s = "udp" ∨ Settings.mode s = "radio")
       | ChList chs => Settings.mode s = "swarm" ∧ Namespace.channels ns = Some chs
       | ChNone => False
       end)
    ∧ (entry.main argparse getenv _project_root int_of_str float_of_str json_dumps
         w argv).1
      = import_from "core.runner" "run"
        :: (if returned (import_raises w "core.runner")
            then (run json_dumps w s).1 else []).
Proof.
  unfold entry.main.
  destruct (cli.parse_args argparse argv) as [a|args] eqn:Ep; [done|].
  destruct (parse_args_inv argparse argv args Ep)
    as (ns & Ha & Hm & Hmode & Hv & Hc & _ & Hcv & Hd & _ & _ & Hchs & _ & Hsw).
  destruct (config.load_settings_from_env _ _ _ _ _ _ _ _ _ _ _ _) as [e|s] eqn:El;
    [done|].
  intros _. exists ns, s.
  pose proof (load_settings_outcome getenv _project_root int_of_str float_of_str
                (CliArgs.mode args) (CliArgs.dry_run args) (CliArgs.channel args)
                (CliArgs.channels args) (CliArgs.vision args) (CliArgs.control args)
                (CliArgs.waypoints args) (CliArgs.log_level args)) as H.
  rewrite El in H.
  destruct H as (_ & _ & _ & Hmo & Hdr & Hen & Hct & _).
  split; [done|]. split; [by rewrite Hen, Hct|]. split; [by rewrite Hmo|].
  split; [by rewrite Hdr|].
  split; [by apply (loaded_target ns args s)|].
  destruct (import_raises w "core.runner"); [done|].
  by destruct (run json_dumps w s).
Qed.

(** X15.  A status that [main] returns is 0 or 1.  An instance of
    [Exception] leaves [main] only before the initialization: it comes from
    the command line, from the loading of the settings, from the import of
    the runner, from logging setup or from the snapshot write, no subsystem
    was constructed and the teardown was not entered.  What leaves [main]
    later is not an instance of [Exception]. *)
Theorem main_status (w : World) (argv : list string) :
  (∀ status,
     (entry.main argparse getenv _project_root int_of_str float_of_str json_dumps
        w argv).2 = inr status →
     status = 0%Z ∨ status = 1%Z)
  ∧ (∀ e,
       (entry.main argparse getenv _project_root int_of_str float_of_str json_dumps
          w argv).2 = inl (Raised e) →
       caught e = true →
       List.filter init_call
         (entry.main argparse getenv _project_root int_of_str float_of_str json_dumps
            w argv).1 = []
       ∧ List.filter observe.is_teardown_banner
           (entry.main argparse getenv _project_root int_of_str float_of_str json_dumps
              w argv).1 = []).
Proof.
  unfold entry.main.
  destruct (cli.parse_args argparse argv) as [a|args] eqn:Ep; [by split|].
  destruct (config.load_settings_from_env _ _ _ _ _ _ _ _ _ _ _ _) as [e|s];
    [by split|].
  destruct (import_raises w "core.runner"); [by split|].
  pose proof (run_status w s) as H.
  pose proof (run_raises_early w s) as H'.
  destruct (run json_dumps w s) as [tr [e|n]]; simpl in *.
  - split; [discriminate|]. intros e' [= <-] Hc. exact (H' e eq_refl Hc).
  - split; [|discriminate]. intros n' [= <-]. exact (H n eq_refl).
Qed.

(** X16.  The log level that the loaded settings carry is the override of
    the command line if there is one, else that of the environment, else
    INFO, in upper case; [run] hands this very name to the logging setup, as
    its first call (its own conversion to upper case changes nothing). *)
Theorem loaded_log_level_reaches_logging
    (w : World) (mode : string) (dry_run : bool)
    (channel : option string) (channels : option (list string))
    (vision control waypoints : bool) (log_level : option string) (s : Settings.t) :
  config.load_settings_from_env getenv _project_root int_of_str float_of_str
    mode dry_run channel channels vision control waypoints log_level = inr s →
  RunSettings.log_level (Settings.run s)
  = upper (if truthy_opt log_level then default "" log_level
           else default "INFO" (getenv "NEST_LOG_LEVEL"))
  ∧ ∃ rest, (run json_dumps w s).1
            = basicConfig (RunSettings.log_level (Settings.run s)) :: rest.
Proof.
  intros E.
  pose proof (load_settings_outcome getenv _project_root int_of_str float_of_str
                mode dry_run channel channels vision control waypoints log_level) as H.
  rewrite E in H. destruct H as (_ & _ & _ & _ & _ & _ & _ & _ & _ & _ & Hl).
  split; [exact Hl|].
  assert (Hu : upper (RunSettings.log_level (Settings.run s))
               = RunSettings.log_level (Settings.run s))
    by (rewrite Hl; apply upper_idempotent).
  rewrite run_unfold. unfold opening. rewrite Hu.
  destruct (basicConfig_raises w); [by eexists|].
  destruct (mkdir_raises w); [by eexists|].
  destruct (write_text_raises w); [by eexists|].
  destruct (Settings.dry_run s); [by eexists|].
  destruct (init_and_loop w s no_handles) as [[f1 tr1] r1].
  destruct (teardown w f1) as [[f2 tr2] r2]. by eexists.
Qed.

End main_more.

(** ** More sample sessions, checked *)

Section more_sample_checks.

Import runner lifecycle observe words.

Lemma _safe_asdict_identity_on_json_witness :
  _safe_asdict sample_more.plain = sample_more.plain.
Proof. exact (_safe_asdict_identity_on_json sample_more.plain eq_refl). Defined.

(** The loop raises in the swarm session with vision: every handle was
    built, and all five shutdown steps are made. *)
Lemma loop_end_teardown_witness :
  (run sample.dumps sample_more.loop_fails sample.swarm_vision).2 = inr 1%Z
  ∧ List.filter shutdown_call
      (run sample.dumps sample_more.loop_fails sample.swarm_vision).1
    = [ DetectorRT_stop (the_detector sample.swarm_vision);
        Thread_join (the_thread sample.swarm_vision) join_timeout;
        SwarmCommand_close (the_swarm sample.swarm_vision);
        DroneLogs_close (the_logs sample.swarm_vision);
        DroneConnection_close (the_drone sample.swarm_vision) ].
Proof.
  exact (loop_end_teardown sample.dumps sample_more.loop_fails sample.swarm_vision
           eq_refl eq_refl eq_refl eq_refl eq_refl eq_refl).
Defined.

(** The teardown of the swarm session with vision when every shutdown
    operation raises an instance of [Exception]: four lines are logged, one
    per block, each with the message of its block, and the teardown
    returns. *)
Lemma teardown_logs_each_failure_witness :
  let w := with_teardown sample.all_fail sample.calm in
  let f := built_before sample.swarm_vision loop_step in
  ∃ rest, teardown w f = (f, teardown_banner :: rest, inr tt)
          ∧ List.filter is_log_exception rest
            = [ log_exception "Error during vision shutdown." (sample.RuntimeError "stop");
                log_exception "Error during swarm shutdown." (sample.RuntimeError "swarm");
                log_exception "Error during log shutdown." (sample.RuntimeError "logs");
                log_exception "Error during drone shutdown." (sample.RuntimeError "drone") ].
Proof.
  cbv zeta.
  destruct (teardown_logs_each_failure (with_teardown sample.all_fail sample.calm)
              (built_before sample.swarm_vision loop_step))
    as (rest & r & E & _ & _ & _ & H).
  destruct (H eq_refl) as [-> Hl]. exists rest. split; [exact E|exact Hl].
Defined.

Lemma teardown_once_after_init_witness :
  ∃ pre post,
    (run sample.dumps sample.calm sample.radio_plain).1
    = (pre ++ teardown_banner :: post)%list
    ∧ List.filter shutdown_call pre = []
    ∧ List.filter init_call post = []
    ∧ List.filter is_teardown_banner pre = []
    ∧ List.filter is_teardown_banner post = [].
Proof.
  exact (teardown_once_after_init sample.dumps sample.calm sample.radio_plain
           eq_refl eq_refl).
Defined.

Lemma snapshot_failure_touches_nothing_witness :
  (∃ e, (run sample.dumps sample.snapshot_denied sample.swarm_vision).2 = inl e)
  ∧ List.filter subsystem_call
      (run sample.dumps sample.snapshot_denied sample.swarm_vision).1 = []
  ∧ List.filter is_teardown_banner
      (run sample.dumps sample.snapshot_denied sample.swarm_vision).1 = [].
Proof.
  exact (snapshot_failure_touches_nothing sample.dumps sample.snapshot_denied
           sample.swarm_vision eq_refl).
Defined.

(** The radio session without vision touches neither the swarm controller
    nor the detector. *)
Lemma unused_subsystems_untouched_witness :
  List.filter swarm_call (run sample.dumps sample.calm sample.radio_plain).1 = []
  ∧ List.filter vision_call (run sample.dumps sample.calm sample.radio_plain).1 = [].
Proof.
  split.
  - exact (proj1 (unused_subsystems_untouched sample.dumps sample.calm sample.radio_plain)
             eq_refl).
  - exact (proj2 (unused_subsystems_untouched sample.dumps sample.calm sample.radio_plain)
             eq_refl).
Defined.

Lemma parse_args_returns_witness :
  ∃ args, cli.parse_args sample_more.argparse ["radio"; "7"] = inr args
          ∧ CliArgs.mode args = "radio"
          ∧ (is_Some (CliArgs.channel args) ↔ CliArgs.mode args = "radio")
          ∧ (is_Some (CliArgs.channels args) ↔ CliArgs.mode args = "swarm").
Proof.
  eexists. split; [reflexivity|]. split; [reflexivity|].
  destruct (parse_args_returns sample_more.argparse ["radio"; "7"] _ eq_refl)
    as (ns & _ & _ & _ & _ & _ & _ & _ & _ & Hr & Hs).
  exact (conj Hr Hs).
Defined.

Lemma load_settings_radio_needs_channel_witness :
  ∃ e, config.load_settings_from_env sample.getenv sample.project_root
         sample.int_of_str sample.float_of_str
         "radio" true None None false false false None = inl e.
Proof.
  exact (load_settings_radio_needs_channel sample.getenv sample.project_root
           sample.int_of_str sample.float_of_str true None None false false false None
           eq_refl).
Defined.

Lemma load_settings_bad_camera_index_witness :
  ∃ msg, config.load_settings_from_env sample_more.getenv_bad_camera sample.project_root
           sample.int_of_str sample.float_of_str
           "udp" true None None false false false None = inl (ValueError msg).
Proof.
  exact (load_settings_bad_camera_index sample_more.getenv_bad_camera sample.project_root
           sample.int_of_str sample.float_of_str
           "udp" true None None false false false None eq_refl eq_refl).
Defined.

(** [fly udp --vision --control] with a URI for udp in the environment. *)
Lemma main_runs_only_valid_sessions_witness :
  ∃ ns s,
    sample_more.argparse ["udp"; "--vision"; "--control"] = inr ns
    ∧ (VisionSettings.control_enabled (Settings.vision s) = true →
       VisionSettings.enabled (Settings.vision s) = true)
    ∧ (Settings.dry_run s = false →
       match uri_or_channels s with
       | ChUri u => u ≠ "" ∧ (Settings.mode s = "udp" ∨ Settings.mode s = "radio")
       | ChList chs => Settings.mode s = "swarm" ∧ Namespace.channels ns = Some chs
       | ChNone => False
       end).
Proof.
  destruct (main_runs_only_valid_sessions sample_more.argparse sample_more.getenv_udp
              sample.project_root sample.int_of_str sample.float_of_str sample.dumps
              sample.calm ["udp"; "--vision"; "--control"])
    as (ns & s & Ha & Hcv & _ & _ & Ht & _).
  - unfold entry.main.
    destruct (cli.parse_args _ _) as [a|args] eqn:Ep; [discriminate Ep|].
    injection Ep as <-.
    destruct (config.load_settings_from_env _ _ _ _ _ _ _ _ _ _ _ _) as [e|s] eqn:El;
      [discriminate El|].
    cbn [import_raises sample.calm]. by destruct (run _ _ _).
  - exists ns, s. auto.
Defined.

(** [fly udp --vision --control] in a world where every call returns: the
    status is 0; [fly udp control --vision] is rejected with a [ValueError]
    before any call. *)
Lemma main_status_witness :
  (∃ status, (entry.main sample_more.argparse sample_more.getenv_udp sample.project_root
                sample.int_of_str sample.float_of_str (λ _, "") sample.calm
                ["udp"; "--vision"; "--control"]).2 = inr status
             ∧ (status = 0%Z ∨ status = 1%Z))
  ∧ List.filter init_call
      (entry.main sample.argparse sample_more.getenv_udp sample.project_root
         sample.int_of_str sample.float_of_str (λ _, "") sample.calm
         ["udp"; "control"; "--vision"]).1 = [].
Proof.
  eassert (E : (entry.main sample_more.argparse sample_more.getenv_udp
                  sample.project_root sample.int_of_str sample.float_of_str (λ _, "")
                  sample.calm ["udp"; "--vision"; "--control"]).2 = inr _)
    by (vm_compute; reflexivity).
  eassert (E' : (entry.main sample.argparse sample_more.getenv_udp
                   sample.project_root sample.int_of_str sample.float_of_str (λ _, "")
                   sample.calm ["udp"; "control"; "--vision"]).2 = inl (Raised _))
    by (vm_compute; reflexivity).
  split.
  - eexists. split; [exact E|].
    exact (proj1 (main_status sample_more.argparse sample_more.getenv_udp
                    sample.project_root sample.int_of_str sample.float_of_str (λ _, "")
                    sample.calm ["udp"; "--vision"; "--control"]) _ E).
  - exact (proj1 (proj2 (main_status sample.argparse sample_more.getenv_udp
                           sample.project_root sample.int_of_str sample.float_of_str
                           (λ _, "") sample.calm ["udp"; "control"; "--vision"])
                    _ E' eq_refl)).
Defined.

(** A radio session on channel 7 with the log level given as [debug]. *)
Lemma loaded_log_level_reaches_logging_witness :
  ∃ s, config.load_settings_from_env sample.getenv sample.project_root
         sample.int_of_str sample.float_of_str
         "radio" false (Some "7") None false false false (Some "debug") = inr s
       ∧ RunSettings.log_level (Settings.run s) = "DEBUG"
       ∧ ∃ rest, (run sample.dumps sample.calm s).1 = basicConfig "DEBUG" :: rest.
Proof.
  eassert (E : config.load_settings_from_env sample.getenv sample.project_root
                 sample.int_of_str sample.float_of_str
                 "radio" false (Some "7") None false false false (Some "debug") = inr _)
    by (vm_compute; reflexivity).
  eexists. split; [exact E|].
  exact (loaded_log_level_reaches_logging sample.getenv sample.project_root
           sample.int_of_str sample.float_of_str sample.dumps sample.calm
           "radio" false (Some "7") None false false false (Some "debug") _ E).
Defined.

End more_sample_checks.
